(** * Genius lyrics scraper and its orchestration script

    A shallow embedding of [genius_free_lyrics_for_apifiy.py] (the scraper
    Actor) and of the album lookup of [main.py], with the properties of
    their specification.

    Python values are modelled as the code has them: a [str] is a sequence
    of Unicode code points, an [int] is a [Z], [None]-able values are
    [option]s, a parsed document is a tree of tags and strings, and the
    effects of the Actor (HTTP requests, records pushed to the dataset,
    raised exceptions) are threaded through a state-and-exception monad. *)

From Stdlib Require Import String Ascii DecimalString.
From Stdlib Require Import ZArith NArith List Bool Lia.
Import ListNotations.

(* ================================================================== *)
(** * Python strings *)
(* ================================================================== *)

(** A Python [str]: a sequence of Unicode code points. *)
Definition pystr : Type := list N.

(** A literal written in ASCII. *)
Definition str (s : string) : pystr :=
  map N_of_ascii (list_ascii_of_string s).
Arguments str s%_string.

(** U+2013, the en dash of the separator [" – "]. *)
Definition EN_DASH : N := 8211.
(** U+000A, the line feed. *)
Definition LF : N := 10.

(** [" – "] and [" - "], the two separators of a combined title. *)
Definition SEP_EN_DASH : pystr := str " " ++ [EN_DASH] ++ str " ".
Definition SEP_HYPHEN : pystr := str " - ".

(** [c.isspace()]: the code points [str.strip()] removes. *)
Definition isspace (c : N) : bool :=
  ((9 <=? c) && (c <=? 13) || (28 <=? c) && (c <=? 32)
   || (c =? 133) || (c =? 160) || (c =? 5760)
   || (8192 <=? c) && (c <=? 8202)
   || (c =? 8232) || (c =? 8233) || (c =? 8239) || (c =? 8287)
   || (c =? 12288))%N.

(** Truthiness of a [str]: [if s:] holds for a non-empty string. *)
Definition truthy (s : pystr) : bool :=
  match s with [] => false | _ :: _ => true end.

Fixpoint lstrip (s : pystr) : pystr :=
  match s with
  | [] => []
  | c :: s' => if isspace c then lstrip s' else s
  end.

Definition rstrip (s : pystr) : pystr := rev (lstrip (rev s)).

(** [s.strip()] *)
Definition strip (s : pystr) : pystr := rstrip (lstrip s).

(** [s.startswith(p)] *)
Fixpoint startswith (p s : pystr) : bool :=
  match p, s with
  | [], _ => true
  | _ :: _, [] => false
  | x :: p', y :: s' => (x =? y)%N && startswith p' s'
  end.

(** [s.find(sub)] as an optional index: [None] stands for Python's [-1]. *)
Fixpoint find (sub s : pystr) : option nat :=
  if startswith sub s then Some 0%nat
  else match s with
       | [] => None
       | _ :: s' => option_map S (find sub s')
       end.

(** [s.rfind(sub)]: the index of the last occurrence. *)
Fixpoint rfind (sub s : pystr) : option nat :=
  match s with
  | [] => if startswith sub [] then Some 0%nat else None
  | _ :: s' =>
      match rfind sub s' with
      | Some i => Some (S i)
      | None => if startswith sub s then Some 0%nat else None
      end
  end.

(** [sub in s] *)
Definition contains (sub s : pystr) : bool :=
  match find sub s with Some _ => true | None => false end.

(** [s.split(sep, 1)]: at most one split, at the first occurrence. *)
Definition split1 (sep s : pystr) : list pystr :=
  match find sep s with
  | Some i => [firstn i s; skipn (i + length sep) s]
  | None => [s]
  end.

(** The tuple assignment [song_title, artist_name = text.split(sep, 1)].
    The source performs it only under the guard [sep in text], where the
    split has exactly two parts (lemma [split1_two_parts]); the last
    branch is not reached there. *)
Definition unpack2 (parts : list pystr) : pystr * pystr :=
  match parts with
  | [a; b] => (a, b)
  | _ => ([], [])
  end.

(** [sep.join(parts)] *)
Fixpoint join (sep : pystr) (parts : list pystr) : pystr :=
  match parts with
  | [] => []
  | [p] => p
  | p :: rest => p ++ sep ++ join sep rest
  end.

(** [s[i:j]] for indices that are not negative. *)
Definition slice (s : pystr) (i j : nat) : pystr := firstn (j - i) (skipn i s).

(** [str(n)] for an [int]. *)
Definition str_of_int (n : Z) : pystr :=
  str (NilEmpty.string_of_int (Z.to_int n)).

(* ================================================================== *)
(** * Regular expressions *)
(* ================================================================== *)

(** The fragment of Python's [re] syntax the scraper uses. *)
Inductive regex : Type :=
| Lit (s : pystr)          (** literal characters *)
| Opt (r : regex)          (** [r?] *)
| DotPlus                  (** [.+]: one or more characters, none a line feed *)
| Cat (r1 r2 : regex)      (** concatenation *)
| Dollar.                  (** [$]: the end, or just before a final line feed *)

(** The remainders [.+] can leave, the longest match first. *)
Fixpoint dot_plus_rests (s : pystr) : list pystr :=
  match s with
  | [] => []
  | c :: s' => if (c =? LF)%N then [] else dot_plus_rests s' ++ [s']
  end.

(** Backtracking matching: every remainder the pattern can leave after
    matching a prefix of [s]. *)
Fixpoint rests (r : regex) (s : pystr) : list pystr :=
  match r with
  | Lit p => if startswith p s then [skipn (length p) s] else []
  | Opt r' => rests r' s ++ [s]
  | DotPlus => dot_plus_rests s
  | Cat r1 r2 => flat_map (rests r2) (rests r1 s)
  | Dollar =>
      match s with
      | [] => [s]
      | [c] => if (c =? LF)%N then [s] else []
      | _ => []
      end
  end.

(** [pattern.match(s)] is not [None]: the pattern matches at the start. *)
Definition re_match (r : regex) (s : pystr) : bool :=
  match rests r s with [] => false | _ :: _ => true end.

(** [LYRICS_URL_RE = re.compile(r"^https?://genius\.com/.+-lyrics/?$")];
    the leading [^] is what [match] does anyway. *)
Definition LYRICS_URL_RE : regex :=
  Cat (Lit (str "http"))
   (Cat (Opt (Lit (str "s")))
    (Cat (Lit (str "://genius.com/"))
     (Cat DotPlus
      (Cat (Lit (str "-lyrics"))
       (Cat (Opt (Lit (str "/"))) Dollar))))).

(* ================================================================== *)
(** * Parsed documents *)
(* ================================================================== *)

(** The tree [BeautifulSoup(html, "html.parser")] builds.  [class_] is the
    multi-valued [class] attribute, which the library keeps as a list;
    [attrs] are the other attributes, in a dictionary.  A [Comment] stands
    for the strings [get_text] leaves out: comments, and the like. *)
#[warnings="-register-all"]
Inductive node : Type :=
| Tag (name : pystr) (class_ : list pystr) (attrs : list (pystr * pystr))
      (contents : list node)
| NavigableString (s : pystr)
| Comment (s : pystr).

Definition pystr_eqb (a b : pystr) : bool :=
  if list_eq_dec N.eq_dec a b then true else false.

(** [tag.get(key)] *)
Fixpoint get (key : pystr) (attrs : list (pystr * pystr)) : option pystr :=
  match attrs with
  | [] => None
  | (k, v) :: rest => if pystr_eqb k key then Some v else get key rest
  end.

(** [tag.descendants]: every node below [n], in document order. *)
Fixpoint descendants (n : node) : list node :=
  match n with
  | Tag _ _ _ contents => flat_map (fun c => c :: descendants c) contents
  | NavigableString _ => []
  | Comment _ => []
  end.

Definition has_name (nm : pystr) (n : node) : bool :=
  match n with
  | Tag name _ _ _ => pystr_eqb name nm
  | _ => false
  end.

Definition has_class (cls : pystr) (n : node) : bool :=
  match n with
  | Tag _ class_ _ _ => existsb (pystr_eqb cls) class_
  | _ => false
  end.

Definition attr (key : pystr) (n : node) : option pystr :=
  match n with
  | Tag _ _ attrs _ => get key attrs
  | _ => None
  end.

(** [soup.select("a.mini_card")] *)
Definition select_a_mini_card (soup : node) : list node :=
  filter (fun n => has_name (str "a") n && has_class (str "mini_card") n)
         (descendants soup).

(** [tag.select_one("." + cls)] *)
Definition select_one_class (cls : pystr) (n : node) : option node :=
  hd_error (filter (has_class cls) (descendants n)).

(** [soup.find_all("a", href=True)] *)
Definition find_all_a_href (soup : node) : list node :=
  filter (fun n => has_name (str "a") n
                   && match attr (str "href") n with
                      | Some _ => true
                      | None => false
                      end)
         (descendants soup).

(** [soup.select('div[data-lyrics-container="true"]')] *)
Definition select_lyrics_containers (soup : node) : list node :=
  filter (fun n => has_name (str "div") n
                   && match attr (str "data-lyrics-container") n with
                      | Some v => pystr_eqb v (str "true")
                      | None => false
                      end)
         (descendants soup).

(** The strings [get_text(strip=True)] collects: the text strings below
    the tag (comments are left out), each stripped, the empty ones
    dropped. *)
Definition stripped_strings (n : node) : list pystr :=
  filter truthy
    (flat_map (fun d => match d with
                        | NavigableString s => [strip s]
                        | _ => []
                        end)
              (descendants n)).

(** [tag.get_text(sep, strip=True)] *)
Definition get_text (sep : pystr) (n : node) : pystr :=
  join sep (stripped_strings n).

(* ================================================================== *)
(** * Search Result Extractor: [parse_search_results] *)
(* ================================================================== *)

(** An entry of [results]: the dictionary with the keys ["url"],
    ["song_title"] and ["artist_name"]. *)
Record candidate : Type := {
  url : pystr;
  song_title : pystr;
  artist_name : pystr
}.

(** [el.get_text(strip=True) if el else ""] *)
Definition text_or_empty (el : option node) : pystr :=
  match el with
  | Some e => get_text [] e
  | None => []
  end.

(** The title and artist one mini card resolves to (lines 53 to 67),
    before the final [strip()] of lines 75 and 76. *)
Definition mini_card_title_artist (a : node) : pystr * pystr :=
  let title_el := select_one_class (str "mini_card-title") a in
  let artist_el := select_one_class (str "mini_card-subtitle") a in
  let song_title := text_or_empty title_el in
  let artist_name := text_or_empty artist_el in
  if negb (truthy song_title) then
    let text := get_text (str " ") a in
    if contains SEP_EN_DASH text then unpack2 (split1 SEP_EN_DASH text)
    else if contains SEP_HYPHEN text then unpack2 (split1 SEP_HYPHEN text)
    else (text, artist_name)
  else (song_title, artist_name).

(** The body of the first loop (lines 49 to 78): [None] is a [continue],
    [Some c] is the entry appended to [results]. *)
Definition mini_card_entry (a : node) : option candidate :=
  let url := match attr (str "href") a with Some h => h | None => [] end in
  if negb (re_match LYRICS_URL_RE url) then None
  else
    let '(song_title, artist_name) := mini_card_title_artist a in
    if negb (truthy song_title) then None
    else Some {| url := url;
                 song_title := strip song_title;
                 artist_name := strip artist_name |}.

(** The body of the second loop (lines 86 to 108). *)
Definition anchor_entry (a : node) : option candidate :=
  let url := match attr (str "href") a with Some h => h | None => [] end in
  if negb (re_match LYRICS_URL_RE url) then None
  else
    let text := get_text (str " ") a in
    if negb (truthy text) then None
    else
      let '(song_title, artist_name) :=
        if contains SEP_EN_DASH text then unpack2 (split1 SEP_EN_DASH text)
        else if contains SEP_HYPHEN text then unpack2 (split1 SEP_HYPHEN text)
        else (text, [])
      in
      Some {| url := url;
              song_title := strip song_title;
              artist_name := strip artist_name |}.

(** A [for a in anchors] loop over [results], with the [break] at
    [len(results) >= max_songs] and [body] deciding between [continue]
    and [results.append]. *)
Fixpoint collect (body : node -> option candidate) (max_songs : Z)
         (anchors : list node) (results : list candidate) : list candidate :=
  match anchors with
  | [] => results
  | a :: rest =>
      if (Z.of_nat (length results) >=? max_songs)%Z then results
      else match body a with
           | None => collect body max_songs rest results
           | Some c => collect body max_songs rest (results ++ [c])
           end
  end.

(** The two loops over the anchors they scan. *)
Definition parse_anchors (max_songs : Z) (mini_cards anchors : list node)
  : list candidate :=
  let results := collect mini_card_entry max_songs mini_cards [] in
  match results with
  | [] => collect anchor_entry max_songs anchors results
  | _ :: _ => results
  end.

(** [parse_search_results(html, max_songs)], on the tree
    [soup = BeautifulSoup(html, "html.parser")] of its first line. *)
Definition parse_search_results (soup : node) (max_songs : Z)
  : list candidate :=
  parse_anchors max_songs (select_a_mini_card soup) (find_all_a_href soup).

(* ================================================================== *)
(** * Lyrics Extractor: [parse_lyrics] *)
(* ================================================================== *)

(** [parse_lyrics(html)], on the tree of [html]. *)
Definition parse_lyrics (soup : node) : pystr :=
  let blocks := map (get_text [LF]) (select_lyrics_containers soup) in
  let text := join [LF; LF] (filter truthy blocks) in
  let text :=
    if negb (truthy text) then
      match select_one_class (str "lyrics") soup with
      | Some old => get_text [LF] old
      | None => text
      end
    else text in
  strip text.

(* ================================================================== *)
(** * The Actor: effects of the scrape run *)
(* ================================================================== *)

(** The Actor input, as its schema types it: [searchQuery] a string and
    [maxSongs] an integer, either one possibly absent. *)
Module Input.
Record t : Type := {
  searchQuery : option pystr;
  maxSongs : option Z
}.
End Input.

(** The dictionary handed to [Actor.push_data]. *)
Module LyricsRecord.
Record t : Type := {
  searchQuery : pystr;
  songTitle : option pystr;
  artistName : option pystr;
  url : pystr;
  lyricsText : pystr;
  error : option pystr
}.
End LyricsRecord.

(** The exceptions of the two programs.  [HTTPError] carries
    [e.response.status_code], or [None] for an error without a response;
    [Timeout] and [ConnectionError] are the exceptions of [requests] that
    are not an [HTTPError]; [OtherException] is any other exception, by
    the name of its class ([TooManyRedirects], [InvalidURL],
    [ChunkedEncodingError] and the like for a request). *)
Inductive exn : Type :=
| RuntimeError (msg : pystr)
| HTTPError (status_code : option Z)
| Timeout
| ConnectionError
| JSONDecodeError
| AttributeError
| TypeError
| OtherException (name : pystr).

(** What [requests.get] or [requests.post] comes back with: a response,
    or an exception.  [TimedOut] is a [Timeout] and [Unreachable] a
    [ConnectionError]; [Raises e] is any exception [e] the call ends in. *)
Inductive reply : Type :=
| Response (status_code : Z) (text : pystr)
| TimedOut
| Unreachable
| Raises (e : exn).

(** What acquiring a proxy URL (lines 148 and 149) comes back with. *)
Inductive proxy_reply : Type :=
| ProxyUrl (u : option pystr)
| ProxyFailed.

(** The collaborators of the scrape run.  [requests_get n url proxy] is
    the reply to the request made after [n] earlier ones, so that the
    same URL may be answered differently each time. *)
Record services : Type := {
  quote_plus : pystr -> pystr;
  BeautifulSoup : pystr -> node;
  requests_get : nat -> pystr -> option pystr -> reply;
  new_proxy_url : proxy_reply
}.

(** The state the run works on: the records pushed to the dataset, in
    the order pushed, and the number of requests sent. *)
Record world : Type := {
  dataset : list LyricsRecord.t;
  requests_sent : nat
}.

Definition start : world := {| dataset := []; requests_sent := 0 |}.

Inductive outcome (A : Type) : Type :=
| Returned (a : A)
| Raised (e : exn).
Arguments Returned {A} a.
Arguments Raised {A} e.

(** A computation of the Actor. *)
Definition Actor (A : Type) : Type := world -> outcome A * world.

Definition ret {A} (a : A) : Actor A := fun w => (Returned a, w).

Definition raise {A} (e : exn) : Actor A := fun w => (Raised e, w).

Definition bind {A B} (m : Actor A) (k : A -> Actor B) : Actor B :=
  fun w => match m w with
           | (Returned a, w') => k a w'
           | (Raised e, w') => (Raised e, w')
           end.

Declare Scope actor_scope.
Delimit Scope actor_scope with actor.
Notation "x <- m ;; k" := (bind m (fun x => k))
  (at level 100, m at next level, right associativity) : actor_scope.
Notation "m ;;; k" := (bind m (fun _ => k))
  (at level 100, right associativity) : actor_scope.
Local Open Scope actor_scope.

(** [try: body / except requests.HTTPError as e: handler], with
    [status = e.response.status_code if e.response is not None else None]
    handed to the handler.  Any other exception passes through. *)
Definition try_except_HTTPError {A} (body : Actor A)
           (handler : option Z -> Actor A) : Actor A :=
  fun w => match body w with
           | (Raised (HTTPError status), w') => handler status w'
           | r => r
           end.

(** [await Actor.push_data(item)] *)
Definition push_data (item : LyricsRecord.t) : Actor unit :=
  fun w => (Returned tt, {| dataset := dataset w ++ [item];
                            requests_sent := requests_sent w |}).

(** A [for x in xs] loop without [break]. *)
Fixpoint for_each {A} (xs : list A) (body : A -> Actor unit) : Actor unit :=
  match xs with
  | [] => ret tt
  | x :: rest => body x ;;; for_each rest body
  end.

(** [f"{status}"] for [status] an [int] or [None]. *)
Definition format_status (status : option Z) : pystr :=
  match status with
  | Some n => str_of_int n
  | None => str "None"
  end.

(** The statuses [raise_for_status()] raises for: 400 to 599. *)
Definition is_error_status (status_code : Z) : bool :=
  ((400 <=? status_code) && (status_code <? 600))%Z.

(** The [proxies] of a request (lines 23 to 28): set only for a proxy URL
    that is not empty. *)
Definition proxies_for (proxy_url : option pystr) : option pystr :=
  match proxy_url with
  | Some p => if truthy p then Some p else None
  | None => None
  end.

(** One more request has been sent. *)
Definition sent (w : world) : world :=
  {| dataset := dataset w; requests_sent := S (requests_sent w) |}.

Section Scraper.

Variable env : services.

(** [f"https://genius.com/search?q={quote_plus(search_query)}"] *)
Definition search_url_of (search_query : pystr) : pystr :=
  str "https://genius.com/search?q=" ++ quote_plus env search_query.

(** The proxy URL the run works with (lines 147 to 152): none when its
    acquisition raises. *)
Definition proxy_url_of : option pystr :=
  match new_proxy_url env with
  | ProxyUrl u => u
  | ProxyFailed => None
  end.

(** [resp.raise_for_status()]: an [HTTPError] for a 4xx or a 5xx. *)
Definition raise_for_status (status_code : Z) : Actor unit :=
  if is_error_status status_code
  then raise (HTTPError (Some status_code))
  else ret tt.

(** [fetch_html_sync(url, proxy_url)] *)
Definition fetch_html_sync (url : pystr) (proxy_url : option pystr)
  : Actor pystr :=
  let proxies := proxies_for proxy_url in
  fun w =>
    match requests_get env (requests_sent w) url proxies with
    | Response status_code text =>
        (raise_for_status status_code ;;; ret text) (sent w)
    | TimedOut => (Raised Timeout, sent w)
    | Unreachable => (Raised ConnectionError, sent w)
    | Raises e => (Raised e, sent w)
    end.

(** The body of the loop over the candidates (lines 201 to 224). *)
Definition song_page (search_query : pystr) (proxy_url : option pystr)
           (c : candidate) : Actor unit :=
  r <- try_except_HTTPError
         (song_html <- fetch_html_sync (url c) proxy_url ;;
          ret (parse_lyrics (BeautifulSoup env song_html), None))
         (fun status =>
            ret ([], Some (str "Failed to fetch song page (status="
                           ++ format_status status ++ str ")"))) ;;
  let '(lyrics_text, error_msg) := r in
  push_data {| LyricsRecord.searchQuery := search_query;
               LyricsRecord.songTitle := Some (song_title c);
               LyricsRecord.artistName := Some (artist_name c);
               LyricsRecord.url := url c;
               LyricsRecord.lyricsText := lyrics_text;
               LyricsRecord.error := error_msg |}.

(** [int(actor_input.get("maxSongs", 1) or 1)] *)
Definition max_songs_of (actor_input : Input.t) : Z :=
  match Input.maxSongs actor_input with
  | Some n => if (n =? 0)%Z then 1%Z else n
  | None => 1%Z
  end.

(** [main()], the entry point of the Actor, on its input. *)
Definition main (actor_input : Input.t) : Actor unit :=
  let max_songs := max_songs_of actor_input in
  match Input.searchQuery actor_input with
  | None => raise (RuntimeError (str "searchQuery is required"))
  | Some search_query =>
    if negb (truthy search_query)
    then raise (RuntimeError (str "searchQuery is required"))
    else
      let search_url := search_url_of search_query in
      let proxy_url := proxy_url_of in
      fetched <- try_except_HTTPError
        (search_html <- fetch_html_sync search_url proxy_url ;;
         ret (Some search_html))
        (fun status =>
           push_data
             {| LyricsRecord.searchQuery := search_query;
                LyricsRecord.songTitle := None;
                LyricsRecord.artistName := None;
                LyricsRecord.url := search_url;
                LyricsRecord.lyricsText := [];
                LyricsRecord.error :=
                  Some (str "Failed to fetch search page (status="
                        ++ format_status status ++ str ")") |} ;;;
           ret None) ;;
      match fetched with
      | None => ret tt
      | Some search_html =>
          let candidates :=
            parse_search_results (BeautifulSoup env search_html) max_songs in
          match candidates with
          | [] =>
              push_data
                {| LyricsRecord.searchQuery := search_query;
                   LyricsRecord.songTitle := None;
                   LyricsRecord.artistName := None;
                   LyricsRecord.url := search_url;
                   LyricsRecord.lyricsText := [];
                   LyricsRecord.error :=
                     Some (str "No candidates found on Genius search page") |}
          | _ :: _ => for_each candidates (song_page search_query proxy_url)
          end
      end
  end.

End Scraper.

(* ================================================================== *)
(** * The orchestration script: the first-album lookup of [main.py] *)
(* ================================================================== *)

Module Agent.

(** A value [json.loads] returns. *)
#[warnings="-register-all"]
Inductive json : Type :=
| JNull
| JBool (b : bool)
| JNumber (literal : pystr)
| JString (s : pystr)
| JList (elements : list json)
| JDict (items : list (pystr * json)).

(** [d.get(key)] on the items of a dictionary. *)
Fixpoint dict_get (key : pystr) (items : list (pystr * json))
  : option json :=
  match items with
  | [] => None
  | (k, v) :: rest => if pystr_eqb k key then Some v else dict_get key rest
  end.

(** The collaborators of the lookup: the prompt text built for an
    artist (lines 107 to 136), the language-model endpoint answering a
    prompt, and the JSON decoder. *)
Record services : Type := {
  first_album_prompt : pystr -> pystr;
  requests_post : pystr -> reply;
  json_loads : pystr -> option json
}.

Definition bind {A B} (m : outcome A) (k : A -> outcome B) : outcome B :=
  match m with
  | Returned a => k a
  | Raised e => Raised e
  end.

Declare Scope agent_scope.
Delimit Scope agent_scope with agent.
Notation "x <- m ;; k" := (bind m (fun x => k))
  (at level 100, m at next level, right associativity) : agent_scope.
Local Open Scope agent_scope.

(** [data.get("response", "").strip()]: an [AttributeError] when [data]
    is not a dictionary or the value has no [strip]. *)
Definition response_text (data : json) : outcome pystr :=
  match data with
  | JDict items =>
      match dict_get (str "response") items with
      | None => Returned (strip [])
      | Some (JString s) => Returned (strip s)
      | Some _ => Raised AttributeError
      end
  | _ => Raised AttributeError
  end.

(** ["tracks" not in data] *)
Definition tracks_not_in (data : json) : outcome bool :=
  match data with
  | JDict items =>
      Returned (match dict_get (str "tracks") items with
                | Some _ => false
                | None => true
                end)
  | JList elements =>
      Returned (negb (existsb (fun x => match x with
                                        | JString s => pystr_eqb s (str "tracks")
                                        | _ => false
                                        end) elements))
  | JString s => Returned (negb (contains (str "tracks") s))
  | _ => Raised TypeError
  end.

(** [data["tracks"]], reached only when ["tracks" in data]. *)
Definition subscript_tracks (data : json) : outcome json :=
  match data with
  | JDict items =>
      match dict_get (str "tracks") items with
      | Some v => Returned v
      | None => Raised TypeError
      end
  | _ => Raised TypeError
  end.

(** [isinstance(v, list)] *)
Definition is_list (v : json) : bool :=
  match v with
  | JList _ => true
  | _ => false
  end.

Section Lookup.

Variable env : services.

(** [call_ollama_json(prompt)].  The message of its [RuntimeError] is
    kept up to the first interpolated value. *)
Definition call_ollama_json (prompt : pystr) : outcome json :=
  match requests_post env prompt with
  | TimedOut => Raised Timeout
  | Unreachable => Raised ConnectionError
  | Raises e => Raised e
  | Response status_code body =>
      if is_error_status status_code
      then Raised (HTTPError (Some status_code))
      else
        data <- match json_loads env body with
                | Some d => Returned d
                | None => Raised JSONDecodeError
                end ;;
        text <- response_text data ;;
        let first := find (str "{") text in
        let last := rfind (str "}") text in
        let text :=
          match first, last with
          | Some i, Some j => slice text i (j + 1)
          | _, _ => text
          end in
        match json_loads env text with
        | Some v => Returned v
        | None => Raised (RuntimeError (str "Failed to parse Ollama JSON: "))
        end
  end.

(** [get_first_album_from_llm(artist_name)] *)
Definition get_first_album_from_llm (artist_name : pystr) : outcome json :=
  data <- call_ollama_json (first_album_prompt env artist_name) ;;
  missing <- tracks_not_in data ;;
  if missing
  then Raised (RuntimeError (str "LLM output is not in the expected format: "))
  else
    tracks <- subscript_tracks data ;;
    if negb (is_list tracks)
    then Raised (RuntimeError (str "LLM output is not in the expected format: "))
    else Returned data.

End Lookup.

End Agent.

(* ================================================================== *)
(** * The orchestration script: the pipeline of [main.py] *)
(* ================================================================== *)

Module Pipeline.

Import Agent.

(** What the pipeline can raise: the exceptions of [exn], and the
    [KeyError] and [IndexError] of a subscript. *)
Inductive failure : Type :=
| Exn (e : exn)
| KeyError
| IndexError.

Inductive result (A : Type) : Type :=
| Ok (a : A)
| Err (e : failure).
Arguments Ok {A} a.
Arguments Err {A} e.

(** The collaborators of the pipeline: those of the lookup, the two Actor
    identifiers of the environment, the Apify endpoint
    ([requests_post n actor_id payload] is the reply to the request made
    after [n] earlier ones), and the renderings Python gives of values the
    model keeps abstract: [bool(x)] of a number by its literal, [str(e)] of
    an exception, [str(v)] of a value that is not a string. *)
Record services : Type := {
  llm : Agent.services;
  YOUTUBE_ACTOR_ID : pystr;
  GENIUS_ACTOR_ID : pystr;
  requests_post : nat -> pystr -> json -> reply;
  bool_of_number : pystr -> bool;
  str_of_failure : failure -> pystr;
  str_of_json : json -> pystr
}.

(** A computation of the pipeline, over the number of requests sent to
    Apify. *)
Definition Run (A : Type) : Type := nat -> result A * nat.

Definition ret {A} (a : A) : Run A := fun n => (Ok a, n).

Definition raise {A} (e : failure) : Run A := fun n => (Err e, n).

Definition bind {A B} (m : Run A) (k : A -> Run B) : Run B :=
  fun n => match m n with
           | (Ok a, n') => k a n'
           | (Err e, n') => (Err e, n')
           end.

(** A step that sends no request. *)
Definition lift {A} (r : result A) : Run A := fun n => (r, n).

Definition of_outcome {A} (o : outcome A) : result A :=
  match o with
  | Returned a => Ok a
  | Raised e => Err (Exn e)
  end.

Declare Scope run_scope.
Delimit Scope run_scope with run.
Notation "x <- m ;; k" := (bind m (fun x => k))
  (at level 100, m at next level, right associativity) : run_scope.
Local Open Scope run_scope.

(** One entry of the ["tracks"] of the report. *)
Record track : Type := {
  song_title : pystr;
  genius_url : json;
  lyrics_raw : json;
  error : json
}.

(** The report [build_agent_output] returns; the three fields of its
    ["album"] are kept side by side. *)
Record report : Type := {
  input_youtube_url : pystr;
  artist_from_youtube : pystr;
  album_artist : json;
  album_title : json;
  release_year : json;
  tracks : list track
}.

(** [v.get(key)]: [None], kept as [JNull], for a missing key; an
    [AttributeError] for a value that is not a dictionary. *)
Definition py_get (key : pystr) (v : json) : result json :=
  match v with
  | JDict items =>
      Ok (match dict_get key items with Some x => x | None => JNull end)
  | _ => Err (Exn AttributeError)
  end.

(** [v[0]] *)
Definition subscript0 (v : json) : result json :=
  match v with
  | JList (x :: _) => Ok x
  | JList [] => Err IndexError
  | JString (c :: _) => Ok (JString [c])
  | JString [] => Err IndexError
  | JDict _ => Err KeyError
  | _ => Err (Exn TypeError)
  end.

(** [v.strip()] *)
Definition py_strip (v : json) : result pystr :=
  match v with
  | JString s => Ok (strip s)
  | _ => Err (Exn AttributeError)
  end.

(** The values [for t in v] runs over. *)
Definition py_iter (v : json) : result (list json) :=
  match v with
  | JList elements => Ok elements
  | JDict items => Ok (map (fun kv => JString (fst kv)) items)
  | JString s => Ok (map (fun c => JString [c]) s)
  | _ => Err (Exn TypeError)
  end.

Section Steps.

Variable env : services.

(** [bool(v)] *)
Definition py_bool (v : json) : bool :=
  match v with
  | JNull => false
  | JBool b => b
  | JNumber literal => bool_of_number env literal
  | JString s => truthy s
  | JList elements => match elements with [] => false | _ :: _ => true end
  | JDict items => match items with [] => false | _ :: _ => true end
  end.

(** [a or b], both already evaluated. *)
Definition py_or (a b : json) : json := if py_bool a then a else b.

(** [str(v)] *)
Definition py_str (v : json) : pystr :=
  match v with
  | JString s => s
  | _ => str_of_json env v
  end.

(** [call_apify_actor(actor_id, payload)]; [resp.json()] is the decoder of
    the lookup. *)
Definition call_apify_actor (actor_id : pystr) (payload : json) : Run json :=
  fun n =>
    match requests_post env n actor_id payload with
    | Response status_code body =>
        if is_error_status status_code
        then (Err (Exn (HTTPError (Some status_code))), S n)
        else match json_loads (llm env) body with
             | Some v => (Ok v, S n)
             | None => (Err (Exn JSONDecodeError), S n)
             end
    | TimedOut => (Err (Exn Timeout), S n)
    | Unreachable => (Err (Exn ConnectionError), S n)
    | Raises e => (Err (Exn e), S n)
    end.

(** The payload of the metadata lookup (lines 74 to 79). *)
Definition youtube_payload (youtube_url : pystr) : json :=
  JDict [(str "startUrls", JList [JDict [(str "url", JString youtube_url)]]);
         (str "maxResults", JNumber (str "1"));
         (str "maxResultsShorts", JNumber (str "0"));
         (str "maxResultStreams", JNumber (str "0"))].

(** [get_artist_from_youtube(youtube_url)].  The four [first.get(...)]
    of the [or] chain are on the same value, so they fail together or not
    at all, and are taken before the chain.  The message of the second
    [RuntimeError] is kept up to the interpolated value. *)
Definition get_artist_from_youtube (youtube_url : pystr) : Run pystr :=
  items <- call_apify_actor (YOUTUBE_ACTOR_ID env)
                            (youtube_payload youtube_url) ;;
  if negb (py_bool items)
  then raise (Exn (RuntimeError (str "YouTube Scraper returned no items.")))
  else
    first <- lift (subscript0 items) ;;
    channelTitle <- lift (py_get (str "channelTitle") first) ;;
    channelName <- lift (py_get (str "channelName") first) ;;
    uploader <- lift (py_get (str "uploader") first) ;;
    author <- lift (py_get (str "author") first) ;;
    artist <- lift (py_strip
                      (py_or channelTitle
                         (py_or channelName
                            (py_or uploader (py_or author (JString [])))))) ;;
    if negb (truthy artist)
    then raise (Exn (RuntimeError
                       (str "Could not extract artist name from YouTube output: ")))
    else ret artist.

(** The payload of a lyrics lookup (lines 153 to 157). *)
Definition genius_payload (search_query : pystr) : json :=
  JDict [(str "searchQuery", JString search_query);
         (str "maxSongs", JNumber (str "1"));
         (str "start_urls",
          JList [JDict [(str "url", JString (str "https://genius.com"))]])].

(** [fetch_lyrics_from_genius(song_title, artist_name)]: whatever
    [call_apify_actor] raises is caught. *)
Definition fetch_lyrics_from_genius (song_title artist_name : pystr)
  : Run track :=
  let search_query :=
    song_title ++ str " " ++ artist_name ++ str " lyrics" in
  let payload := genius_payload search_query in
  fun n =>
    match call_apify_actor (GENIUS_ACTOR_ID env) payload n with
    | (Err e, n') =>
        (Ok {| song_title := song_title;
               genius_url := JNull;
               lyrics_raw := JString [];
               error := JString (str "Apify call failed: "
                                 ++ str_of_failure env e) |}, n')
    | (Ok items, n') =>
        if negb (py_bool items)
        then (Ok {| song_title := song_title;
                    genius_url := JNull;
                    lyrics_raw := JString [];
                    error :=
                      JString (str "No items returned from genius-free-lyrics actor") |},
              n')
        else
          (item <- lift (subscript0 items) ;;
           url <- lift (py_get (str "url") item) ;;
           lyricsText <- lift (py_get (str "lyricsText") item) ;;
           error <- lift (py_get (str "error") item) ;;
           ret {| song_title := song_title;
                  genius_url := url;
                  lyrics_raw := py_or lyricsText (JString []);
                  error := error |}) n'
    end.

(** The loop over the tracks (lines 205 to 211), [lyrics_results] being
    the list it appends to. *)
Fixpoint fetch_tracks (artist_name : pystr) (tracks : list json)
         (lyrics_results : list track) : Run (list track) :=
  match tracks with
  | [] => ret lyrics_results
  | t :: rest =>
      let t_str := strip (py_str t) in
      if negb (truthy t_str)
      then fetch_tracks artist_name rest lyrics_results
      else
        lyrics_info <- fetch_lyrics_from_genius t_str artist_name ;;
        fetch_tracks artist_name rest (lyrics_results ++ [lyrics_info])
  end.

(** [build_agent_output(youtube_url)] *)
Definition build_agent_output (youtube_url : pystr) : Run report :=
  artist_name <- get_artist_from_youtube youtube_url ;;
  album_info <- lift (of_outcome
                        (get_first_album_from_llm (llm env) artist_name)) ;;
  info_title <- lift (py_get (str "album_title") album_info) ;;
  info_year <- lift (py_get (str "release_year") album_info) ;;
  tracks <- lift (match album_info with
                  | JDict items =>
                      Ok (match dict_get (str "tracks") items with
                          | Some v => v
                          | None => JList []
                          end)
                  | _ => Err (Exn AttributeError)
                  end) ;;
  tracks <- lift (py_iter tracks) ;;
  lyrics_results <- fetch_tracks artist_name tracks [] ;;
  artist <- lift (py_get (str "artist") album_info) ;;
  ret {| input_youtube_url := youtube_url;
         artist_from_youtube := artist_name;
         album_artist := artist;
         album_title := info_title;
         release_year := info_year;
         tracks := lyrics_results |}.

End Steps.

End Pipeline.

(* ================================================================== *)
(** * Vocabulary of the properties *)
(* ================================================================== *)

(** [s] splits into [t], [sep], [r] at the leftmost occurrence of
    [sep]. *)
Definition first_split (sep s t r : pystr) : Prop :=
  s = t ++ sep ++ r /\
  forall t' r', s = t' ++ sep ++ r' -> (length t <= length t')%nat.

(** A string that starts with a character [strip()] would keep. *)
Definition nonspace_head (s : pystr) : Prop :=
  exists c r, s = c :: r /\ isspace c = false.

(** A separator that starts with white space, as both [" – "] and
    [" - "] do. *)
Definition space_led (sep : pystr) : Prop :=
  exists c0 sep', sep = c0 :: sep' /\ isspace c0 = true.

(** What a pattern can leave of [s], as a relation. *)
Fixpoint leaves (r : regex) (s rest : pystr) : Prop :=
  match r with
  | Lit p => s = p ++ rest
  | Opt r' => leaves r' s rest \/ rest = s
  | DotPlus =>
      exists pre, pre <> [] /\ Forall (fun c => c <> LF) pre /\ s = pre ++ rest
  | Cat r1 r2 => exists mid, leaves r1 s mid /\ leaves r2 mid rest
  | Dollar => rest = s /\ (s = [] \/ s = [LF])
  end.

(** The URLs [LYRICS_URL_RE] accepts, spelled out: the scheme [http] or
    [https], the host [genius.com], a slug that is not empty and has no
    line feed, [-lyrics], an optional slash and, as [$] allows, an
    optional final line feed. *)
Definition lyrics_url_shape (url : pystr) : Prop :=
  exists scheme slug slash eol,
    (scheme = str "http" \/ scheme = str "https") /\
    slug <> [] /\ Forall (fun c => c <> LF) slug /\
    (slash = [] \/ slash = str "/") /\
    (eol = [] \/ eol = [LF]) /\
    url = scheme ++ str "://genius.com/" ++ slug ++ str "-lyrics"
          ++ slash ++ eol.

(** [a.get("href") or ""] matches the lyric-page pattern. *)
Definition lyric_link (a : node) : bool :=
  re_match LYRICS_URL_RE
           (match attr (str "href") a with Some h => h | None => [] end).

(** The lyric-page URL pattern as the specification words it:
    [https://genius.com/<slug>-lyrics] with an optional trailing slash. *)
Definition spec_lyric_page_url (url : pystr) : Prop :=
  exists slug,
    slug <> [] /\
    (url = str "https://genius.com/" ++ slug ++ str "-lyrics"
     \/ url = str "https://genius.com/" ++ slug ++ str "-lyrics" ++ str "/").

(** The fallback of the first layout as the specification words it: the
    flattened text split on [" – "] first, then on [" - "], and otherwise
    the whole text as the title with an empty artist. *)
Definition spec_fallback_split (text : pystr) : pystr * pystr :=
  if contains SEP_EN_DASH text then unpack2 (split1 SEP_EN_DASH text)
  else if contains SEP_HYPHEN text then unpack2 (split1 SEP_HYPHEN text)
  else (text, []).

(** A record whose [error] is set has no lyrics. *)
Definition error_means_no_lyrics (r : LyricsRecord.t) : Prop :=
  LyricsRecord.error r <> None -> LyricsRecord.lyricsText r = [].

(** The exception a request ends in by itself, if any. *)
Definition raised_by (r : reply) : option exn :=
  match r with
  | Response _ _ => None
  | TimedOut => Some Timeout
  | Unreachable => Some ConnectionError
  | Raises e => Some e
  end.


(** One more record has been pushed. *)
Definition pushed (item : LyricsRecord.t) (w : world) : world :=
  {| dataset := dataset w ++ [item]; requests_sent := requests_sent w |}.

Section Records.

Variable env : services.

(** The record pushed when the search page answers with an error
    status. *)
Definition search_failure_record (search_query : pystr) (status : Z)
  : LyricsRecord.t :=
  {| LyricsRecord.searchQuery := search_query;
     LyricsRecord.songTitle := None;
     LyricsRecord.artistName := None;
     LyricsRecord.url := search_url_of env search_query;
     LyricsRecord.lyricsText := [];
     LyricsRecord.error :=
       Some (str "Failed to fetch search page (status="
             ++ str_of_int status ++ str ")") |}.

(** The record pushed when the request for the search page ends in an
    [HTTPError] of its own. *)
Definition search_http_failure_record (search_query : pystr)
           (status : option Z) : LyricsRecord.t :=
  {| LyricsRecord.searchQuery := search_query;
     LyricsRecord.songTitle := None;
     LyricsRecord.artistName := None;
     LyricsRecord.url := search_url_of env search_query;
     LyricsRecord.lyricsText := [];
     LyricsRecord.error :=
       Some (str "Failed to fetch search page (status="
             ++ format_status status ++ str ")") |}.

(** The record pushed for a candidate whose request ends in an
    [HTTPError] of its own. *)
Definition song_http_failure_record (search_query : pystr) (c : candidate)
           (status : option Z) : LyricsRecord.t :=
  {| LyricsRecord.searchQuery := search_query;
     LyricsRecord.songTitle := Some (song_title c);
     LyricsRecord.artistName := Some (artist_name c);
     LyricsRecord.url := url c;
     LyricsRecord.lyricsText := [];
     LyricsRecord.error :=
       Some (str "Failed to fetch song page (status="
             ++ format_status status ++ str ")") |}.

(** The record pushed when the search page has no candidate. *)
Definition no_candidates_record (search_query : pystr) : LyricsRecord.t :=
  {| LyricsRecord.searchQuery := search_query;
     LyricsRecord.songTitle := None;
     LyricsRecord.artistName := None;
     LyricsRecord.url := search_url_of env search_query;
     LyricsRecord.lyricsText := [];
     LyricsRecord.error :=
       Some (str "No candidates found on Genius search page") |}.

(** The record pushed for a candidate whose page answers with an error
    status. *)
Definition song_failure_record (search_query : pystr) (c : candidate)
           (status : Z) : LyricsRecord.t :=
  {| LyricsRecord.searchQuery := search_query;
     LyricsRecord.songTitle := Some (song_title c);
     LyricsRecord.artistName := Some (artist_name c);
     LyricsRecord.url := url c;
     LyricsRecord.lyricsText := [];
     LyricsRecord.error :=
       Some (str "Failed to fetch song page (status="
             ++ str_of_int status ++ str ")") |}.

(** The record pushed for a candidate whose page is fetched. *)
Definition song_success_record (search_query : pystr) (c : candidate)
           (song_html : pystr) : LyricsRecord.t :=
  {| LyricsRecord.searchQuery := search_query;
     LyricsRecord.songTitle := Some (song_title c);
     LyricsRecord.artistName := Some (artist_name c);
     LyricsRecord.url := url c;
     LyricsRecord.lyricsText := parse_lyrics (BeautifulSoup env song_html);
     LyricsRecord.error := None |}.

End Records.

(* ================================================================== *)
(** * Sample pages *)
(* ================================================================== *)

Definition document (contents : list node) : node :=
  Tag (str "[document]") [] [] contents.

(** [<a class='mini_card' href=...>] *)
Definition a_mini_card (href : pystr) (contents : list node) : node :=
  Tag (str "a") [str "mini_card"] [(str "href", href)] contents.

(** [<a href=...>] *)
Definition a_href (href : pystr) (contents : list node) : node :=
  Tag (str "a") [] [(str "href", href)] contents.

(** [<span class=...>text</span>] *)
Definition span_class (cls text : pystr) : node :=
  Tag (str "span") [cls] [] [NavigableString text].

(** A search page of the newer layout: two lyric links and a link to an
    artist page. *)
Definition page_two_links : node :=
  document
    [a_href (str "https://genius.com/Queen-bohemian-rhapsody-lyrics")
            [NavigableString (str "Bohemian Rhapsody" ++ SEP_EN_DASH ++ str "Queen")];
     a_href (str "https://genius.com/artists/Queen")
            [NavigableString (str "Queen")];
     a_href (str "https://genius.com/Queen-killer-queen-lyrics")
            [NavigableString (str " Killer Queen - Queen ")]].

(** A search page of the older layout: a card without any text, a card
    with both sub-elements, and a card with a title only. *)
Definition page_mini_cards : node :=
  document
    [a_mini_card (str "https://genius.com/Queen-untitled-lyrics") [];
     a_mini_card (str "https://genius.com/Queen-bohemian-rhapsody-lyrics")
                 [span_class (str "mini_card-title") (str " Bohemian Rhapsody ");
                  span_class (str "mini_card-subtitle") (str "Queen")];
     a_mini_card (str "https://genius.com/Queen-killer-queen-lyrics")
                 [span_class (str "mini_card-title") (str "Killer Queen")]].

(** A page whose only link has the scheme [http]. *)
Definition page_http_link : node :=
  document [a_href (str "http://genius.com/a-lyrics")
                   [NavigableString (str "Alpha")]].

(** A card with a title sub-element and no subtitle sub-element, whose
    whole text reads "Alpha – Beta". *)
Definition card_title_only : node :=
  a_mini_card (str "https://genius.com/alpha-lyrics")
              [span_class (str "mini_card-title") (str "Alpha");
               NavigableString ([EN_DASH] ++ str " Beta")].

(** A card without sub-elements, whose text reads "Alpha – Beta". *)
Definition card_plain_text : node :=
  a_mini_card (str "https://genius.com/alpha-lyrics")
              [NavigableString (str "Alpha" ++ SEP_EN_DASH ++ str "Beta")].

(** A card without sub-elements, whose text reads "Alpha - Beta - Gamma". *)
Definition card_hyphen_text : node :=
  a_mini_card (str "https://genius.com/alpha-lyrics")
              [NavigableString (str "Alpha - Beta - Gamma")].

(** A card with a subtitle sub-element only. *)
Definition card_subtitle_only : node :=
  a_mini_card (str "https://genius.com/alpha-lyrics")
              [span_class (str "mini_card-subtitle") (str "Beta")].

(* ================================================================== *)
(** * Sample runs *)
(* ================================================================== *)

(** [quote_plus] on a query of letters, digits and spaces: a space
    becomes [+]. *)
Definition sample_quote_plus (q : pystr) : pystr :=
  map (fun c => if (c =? 32)%N then 43%N else c) q.

(** The markup of [page_two_links]. *)
Definition search_markup : pystr :=
  str "<a href='https://genius.com/Queen-bohemian-rhapsody-lyrics'>Bohemian Rhapsody"
  ++ SEP_EN_DASH
  ++ str "Queen</a><a href='https://genius.com/artists/Queen'>Queen</a><a href='https://genius.com/Queen-killer-queen-lyrics'> Killer Queen - Queen </a>".

(** A lyric page of the newer layout, with two blocks. *)
Definition lyrics_page : node :=
  document
    [Tag (str "div") [] [(str "data-lyrics-container", str "true")]
         [NavigableString (str "Line1")];
     Tag (str "div") [] [(str "data-lyrics-container", str "true")]
         [NavigableString (str "Line2")]].

(** The markup of [lyrics_page]. *)
Definition lyrics_markup : pystr :=
  str "<div data-lyrics-container='true'>Line1</div><div data-lyrics-container='true'>Line2</div>".

(** The parser on the two sample markups; any other markup is read as an
    empty document. *)
Definition sample_soup (html : pystr) : node :=
  if pystr_eqb html search_markup then page_two_links
  else if pystr_eqb html lyrics_markup then lyrics_page
  else document [].

(** Collaborators whose [n]-th request is answered by [replies n], with
    no proxy to be had. *)
Definition sample_services (replies : nat -> reply) : services :=
  {| quote_plus := sample_quote_plus;
     BeautifulSoup := sample_soup;
     requests_get := fun n _ _ => replies n;
     new_proxy_url := ProxyFailed |}.

Definition sample_input (max_songs : Z) : Input.t :=
  {| Input.searchQuery := Some (str "Bohemian Rhapsody");
     Input.maxSongs := Some max_songs |}.



(** The search page answers 403. *)
Definition search_forbidden : nat -> reply := fun _ => Response 403 [].

(** The search page is served, the first song page answers 404, every
    later page is served. *)
Definition first_song_missing : nat -> reply :=
  fun n => match n with
           | 0%nat => Response 200 search_markup
           | 1%nat => Response 404 []
           | _ => Response 200 lyrics_markup
           end.


Definition bohemian_rhapsody : candidate :=
  {| url := str "https://genius.com/Queen-bohemian-rhapsody-lyrics";
     song_title := str "Bohemian Rhapsody";
     artist_name := str "Queen" |}.

Definition killer_queen : candidate :=
  {| url := str "https://genius.com/Queen-killer-queen-lyrics";
     song_title := str "Killer Queen";
     artist_name := str "Queen" |}.

(** [s] between double quotes. *)
Definition quoted (s : pystr) : pystr := [34%N] ++ s ++ [34%N].

(** The object a sample answer of the language model holds, as text. *)
Definition album_text (tracks_key : pystr) : pystr :=
  str "{" ++ quoted tracks_key ++ str ": []}".

(** The body of the endpoint's reply around that answer. *)
Definition generate_body (tracks_key : pystr) : pystr :=
  str "{" ++ quoted (str "response") ++ str ": "
  ++ quoted (str "Sure! " ++ album_text tracks_key ++ str " Enjoy.")
  ++ str "}".

(** The decoder on the two texts of a sample exchange. *)
Definition sample_json_loads (tracks_key : pystr) (s : pystr)
  : option Agent.json :=
  if pystr_eqb s (generate_body tracks_key) then
    Some (Agent.JDict
            [(str "response",
              Agent.JString (str "Sure! " ++ album_text tracks_key
                             ++ str " Enjoy."))])
  else if pystr_eqb s (album_text tracks_key) then
    Some (Agent.JDict [(tracks_key, Agent.JList [])])
  else None.

(** An endpoint that answers every prompt with an object whose only key
    is [tracks_key], surrounded by prose. *)
Definition sample_llm (tracks_key : pystr) : Agent.services :=
  {| Agent.first_album_prompt :=
       fun artist_name => str "For the artist " ++ quoted artist_name;
     Agent.requests_post := fun _ => Response 200 (generate_body tracks_key);
     Agent.json_loads := sample_json_loads tracks_key |}.

(* ================================================================== *)
(** * Vocabulary of the further properties *)
(* ================================================================== *)

(** The entries a loop body gives for the anchors it is run on, in the
    order of the anchors. *)
Definition entries (body : node -> option candidate) (anchors : list node)
  : list candidate :=
  flat_map (fun a => match body a with Some c => [c] | None => [] end) anchors.

(** Every candidate a page can give, without a bound: the entries of the
    mini cards, or those of all the anchors when no mini card gives one. *)
Definition all_candidates (soup : node) : list candidate :=
  match entries mini_card_entry (select_a_mini_card soup) with
  | [] => entries anchor_entry (find_all_a_href soup)
  | c :: cs => c :: cs
  end.

(** A string that ends with a character [strip()] would keep. *)
Definition nonspace_last (s : pystr) : Prop :=
  exists r c, s = r ++ [c] /\ isspace c = false.

(** A string [strip()] leaves as it is: empty, or with kept characters at
    both ends. *)
Definition trimmed (s : pystr) : Prop :=
  s = [] \/ (nonspace_head s /\ nonspace_last s).

(** The record [r] is about the candidate [c] of the query
    [search_query]. *)
Definition record_of (search_query : pystr) (c : candidate)
           (r : LyricsRecord.t) : Prop :=
  LyricsRecord.searchQuery r = search_query
  /\ LyricsRecord.songTitle r = Some (song_title c)
  /\ LyricsRecord.artistName r = Some (artist_name c)
  /\ LyricsRecord.url r = url c.

(** Three links of the second layout: with an en dash, with hyphens only,
    and without a separator. *)
Definition link_en_dash : node :=
  a_href (str "https://genius.com/Queen-bohemian-rhapsody-lyrics")
         [NavigableString (str " Bohemian Rhapsody - Live" ++ SEP_EN_DASH
                           ++ str "Queen ")].

Definition link_hyphen : node :=
  a_href (str "https://genius.com/Queen-killer-queen-lyrics")
         [NavigableString (str "Killer Queen - Queen - 1974")].

Definition link_plain : node :=
  a_href (str "https://genius.com/Queen-bicycle-race-lyrics")
         [Tag (str "b") [] [] [NavigableString (str "Bicycle")];
          NavigableString (str " Race ")].

(** A lyric page of the older layout, with a stray empty container of the
    newer one. *)
Definition legacy_lyrics_page : node :=
  document
    [Tag (str "div") [] [(str "data-lyrics-container", str "true")]
         [NavigableString (str "  ")];
     Tag (str "div") [str "lyrics"] []
         [Tag (str "p") [] [] [NavigableString (str " Line1 ")];
          Tag (str "p") [] [] [NavigableString (str "Line2")]]].

(** The collaborators [env] with no proxy URL to be had. *)
Definition without_proxy (env : services) : services :=
  {| quote_plus := quote_plus env;
     BeautifulSoup := BeautifulSoup env;
     requests_get := requests_get env;
     new_proxy_url := ProxyUrl None |}.


(** The fields the artist name is looked for in, by priority. *)
Definition ARTIST_KEYS : list pystr :=
  [str "channelTitle"; str "channelName"; str "uploader"; str "author"].

(** [d.get(key)] on the items of an object, [None] kept as [JNull]. *)
Definition field (key : pystr) (items : list (pystr * Agent.json))
  : Agent.json :=
  match Agent.dict_get key items with Some x => x | None => Agent.JNull end.

(** The record of a lyrics lookup whose call to Apify raised [e]. *)
Definition failed_lookup (env : Pipeline.services) (song_title : pystr)
           (e : Pipeline.failure) : Pipeline.track :=
  {| Pipeline.song_title := song_title;
     Pipeline.genius_url := Agent.JNull;
     Pipeline.lyrics_raw := Agent.JString [];
     Pipeline.error :=
       Agent.JString (str "Apify call failed: "
                      ++ Pipeline.str_of_failure env e) |}.

(** A reply to a lyrics lookup that the pipeline gets through: an
    exception, an error status, a body that does not decode, or a body
    that decodes to a falsy value or to a list that starts with an
    object. *)
Definition tolerated_reply (env : Pipeline.services) (r : reply) : Prop :=
  match r with
  | Response status body =>
      is_error_status status = true
      \/ match Agent.json_loads (Pipeline.llm env) body with
         | None => True
         | Some v =>
             Pipeline.py_bool env v = false
             \/ exists item rest,
                 v = Agent.JList (Agent.JDict item :: rest)
         end
  | TimedOut => True
  | Unreachable => True
  | Raises _ => True
  end.

(** The track names the lyrics are looked up for: the text of each entry,
    stripped, the blank ones left out. *)
Definition track_names (env : Pipeline.services) (tracks : list Agent.json)
  : list pystr :=
  filter truthy (map (fun t => strip (Pipeline.py_str env t)) tracks).

(** The value of the [or] chain over the artist fields of an item: the
    first true one, or the empty string. *)
Definition artist_field (env : Pipeline.services)
           (items : list (pystr * Agent.json)) : Agent.json :=
  fold_right (fun key rest => Pipeline.py_or env (field key items) rest)
             (Agent.JString []) ARTIST_KEYS.

(** A decoder given by the table of the texts it decodes. *)
Fixpoint sample_decoder (table : list (pystr * Agent.json)) (s : pystr)
  : option Agent.json :=
  match table with
  | [] => None
  | (text, v) :: rest =>
      if pystr_eqb s text then Some v else sample_decoder rest s
  end.

(** The first item of a metadata lookup: a null [channelTitle], a
    [channelName] with white space around it, an [author]. *)
Definition youtube_item : list (pystr * Agent.json) :=
  [(str "channelTitle", Agent.JNull);
   (str "channelName", Agent.JString (str " Queen Official "));
   (str "author", Agent.JString (str "someone"))].

Definition youtube_body : pystr :=
  str "[{" ++ quoted (str "channelTitle") ++ str ": null, "
  ++ quoted (str "channelName") ++ str ": " ++ quoted (str " Queen Official ")
  ++ str ", " ++ quoted (str "author") ++ str ": " ++ quoted (str "someone")
  ++ str "}]".

(** The album the language model answers with: three tracks, the second
    one blank. *)
Definition album_items : list (pystr * Agent.json) :=
  [(str "artist", Agent.JString (str "Queen"));
   (str "album_title", Agent.JString (str "Queen"));
   (str "release_year", Agent.JNumber (str "1973"));
   (str "tracks",
    Agent.JList [Agent.JString (str "Keep Yourself Alive");
                 Agent.JString (str "  ");
                 Agent.JString (str " Liar ")])].

Definition album_object_text : pystr :=
  str "{" ++ quoted (str "artist") ++ str ": " ++ quoted (str "Queen")
  ++ str ", " ++ quoted (str "album_title") ++ str ": " ++ quoted (str "Queen")
  ++ str ", " ++ quoted (str "release_year") ++ str ": 1973, "
  ++ quoted (str "tracks") ++ str ": [" ++ quoted (str "Keep Yourself Alive")
  ++ str ", " ++ quoted (str "  ") ++ str ", " ++ quoted (str " Liar ")
  ++ str "]}".

Definition album_answer : pystr :=
  str "Here is the album: " ++ album_object_text ++ str " Hope this helps!".

Definition album_reply_body : pystr :=
  str "{" ++ quoted (str "response") ++ str ": " ++ quoted album_answer
  ++ str "}".

(** The only item of a lyrics lookup that succeeds. *)
Definition genius_item : list (pystr * Agent.json) :=
  [(str "url", Agent.JString (str "https://genius.com/Queen-liar-lyrics"));
   (str "lyricsText", Agent.JString (str "Line1"));
   (str "error", Agent.JNull)].

Definition genius_body : pystr :=
  str "[{" ++ quoted (str "url") ++ str ": "
  ++ quoted (str "https://genius.com/Queen-liar-lyrics") ++ str ", "
  ++ quoted (str "lyricsText") ++ str ": " ++ quoted (str "Line1") ++ str ", "
  ++ quoted (str "error") ++ str ": null}]".

Definition sample_table : list (pystr * Agent.json) :=
  [(youtube_body, Agent.JList [Agent.JDict youtube_item]);
   (album_reply_body,
    Agent.JDict [(str "response", Agent.JString album_answer)]);
   (album_object_text, Agent.JDict album_items);
   (genius_body, Agent.JList [Agent.JDict genius_item]);
   (str "[]", Agent.JList [])].

(** A pipeline whose metadata lookup is served, whose first lyrics lookup
    times out and whose later ones are served. *)
Definition sample_pipeline : Pipeline.services :=
  {| Pipeline.llm :=
       {| Agent.first_album_prompt :=
            fun artist_name => str "For the artist " ++ quoted artist_name;
          Agent.requests_post := fun _ => Response 200 album_reply_body;
          Agent.json_loads := sample_decoder sample_table |};
     Pipeline.YOUTUBE_ACTOR_ID := str "youtube-scraper";
     Pipeline.GENIUS_ACTOR_ID := str "genius-free-lyrics";
     Pipeline.requests_post :=
       fun n _ _ => match n with
                    | 0%nat => Response 200 youtube_body
                    | 1%nat => TimedOut
                    | _ => Response 200 genius_body
                    end;
     Pipeline.bool_of_number := fun literal => negb (pystr_eqb literal (str "0"));
     Pipeline.str_of_failure :=
       fun e => match e with
                | Pipeline.Exn Timeout => str "Read timed out."
                | _ => str "error"
                end;
     Pipeline.str_of_json := fun _ => str "?" |}.

(** The report of the sample pipeline. *)
Definition sample_report : Pipeline.report :=
  {| Pipeline.input_youtube_url := str "https://youtu.be/fJ9rUzIMcZQ";
     Pipeline.artist_from_youtube := str "Queen Official";
     Pipeline.album_artist := Agent.JString (str "Queen");
     Pipeline.album_title := Agent.JString (str "Queen");
     Pipeline.release_year := Agent.JNumber (str "1973");
     Pipeline.tracks :=
       [{| Pipeline.song_title := str "Keep Yourself Alive";
           Pipeline.genius_url := Agent.JNull;
           Pipeline.lyrics_raw := Agent.JString [];
           Pipeline.error :=
             Agent.JString (str "Apify call failed: Read timed out.") |};
        {| Pipeline.song_title := str "Liar";
           Pipeline.genius_url :=
             Agent.JString (str "https://genius.com/Queen-liar-lyrics");
           Pipeline.lyrics_raw := Agent.JString (str "Line1");
           Pipeline.error := Agent.JNull |}] |}.

(** A pipeline whose metadata lookup finds nothing. *)
Definition empty_metadata_pipeline : Pipeline.services :=
  {| Pipeline.llm := Pipeline.llm sample_pipeline;
     Pipeline.YOUTUBE_ACTOR_ID := str "youtube-scraper";
     Pipeline.GENIUS_ACTOR_ID := str "genius-free-lyrics";
     Pipeline.requests_post := fun _ _ _ => Response 200 (str "[]");
     Pipeline.bool_of_number := Pipeline.bool_of_number sample_pipeline;
     Pipeline.str_of_failure := Pipeline.str_of_failure sample_pipeline;
     Pipeline.str_of_json := Pipeline.str_of_json sample_pipeline |}.

(* ================================================================== *)
(** * Facts about strings *)
(* ================================================================== *)

Section StringFacts.

Implicit Types s t r sub sep : pystr.

Lemma startswith_app sub r : startswith sub (sub ++ r) = true.
Proof.
  induction sub as [|x sub IH]; simpl; [reflexivity|].
  now rewrite N.eqb_refl.
Qed.

Lemma startswith_inv sub s :
  startswith sub s = true -> s = sub ++ skipn (length sub) s.
Proof.
  revert s; induction sub as [|x sub IH]; intros [|y s]; simpl;
    try reflexivity; try discriminate.
  intros H. apply andb_prop in H as [Hxy Hs].
  apply N.eqb_eq in Hxy. subst y. f_equal. now apply IH.
Qed.

Lemma skipn_length_app t s : skipn (length t) (t ++ s) = s.
Proof. induction t; simpl; auto. Qed.

Lemma firstn_length_app t s : firstn (length t) (t ++ s) = t.
Proof. induction t; simpl; [now destruct s | now f_equal]. Qed.

(** An occurrence found by [find] is the leftmost one. *)
Lemma find_Some sub s i :
  find sub s = Some i ->
  startswith sub (skipn i s) = true /\
  (forall j, (j < i)%nat -> startswith sub (skipn j s) = false).
Proof.
  revert i; induction s as [|c s IH]; intros i.
  - simpl. destruct (startswith sub []) eqn:E; [|discriminate].
    intros [= <-]. split; [exact E | intros j Hj; lia].
  - cbn [find]. destruct (startswith sub (c :: s)) eqn:E.
    + intros [= <-]. split; [exact E | intros j Hj; lia].
    + destruct (find sub s) as [k|] eqn:F; [|discriminate].
      intros [= <-]. destruct (IH k eq_refl) as [Hk Hmin].
      split; [exact Hk|].
      intros [|j] Hj; [exact E | apply Hmin; lia].
Qed.

Lemma find_None sub s :
  find sub s = None -> forall j, startswith sub (skipn j s) = false.
Proof.
  induction s as [|c s IH].
  - simpl. destruct (startswith sub []) eqn:E; [discriminate|].
    intros _ j. now rewrite skipn_nil.
  - cbn [find]. destruct (startswith sub (c :: s)) eqn:E; [discriminate|].
    destruct (find sub s) eqn:F; [discriminate|].
    intros _ [|j]; [exact E | now apply IH].
Qed.

Lemma occurrence_at t sub r :
  startswith sub (skipn (length t) (t ++ sub ++ r)) = true.
Proof. rewrite skipn_length_app. apply startswith_app. Qed.

Lemma find_Some_split sub s i :
  find sub s = Some i ->
  s = firstn i s ++ sub ++ skipn (i + length sub) s.
Proof.
  intros H. apply find_Some in H as [H _].
  apply startswith_inv in H.
  rewrite skipn_skipn in H. rewrite (Nat.add_comm i).
  rewrite <- H. symmetry. apply firstn_skipn.
Qed.

(** [sub in s] holds exactly when [s] has an occurrence of [sub]. *)
Lemma contains_true sub s :
  contains sub s = true <-> exists t r, s = t ++ sub ++ r.
Proof.
  unfold contains. split.
  - destruct (find sub s) as [i|] eqn:F; [|discriminate].
    intros _. exists (firstn i s), (skipn (i + length sub) s).
    now apply find_Some_split.
  - intros (t & r & ->).
    destruct (find sub (t ++ sub ++ r)) eqn:F; [reflexivity|].
    pose proof (find_None _ _ F (length t)) as H.
    now rewrite occurrence_at in H.
Qed.

Lemma contains_false sub s :
  contains sub s = false <-> forall t r, s <> t ++ sub ++ r.
Proof.
  split.
  - intros H t r E.
    assert (contains sub s = true) by (apply contains_true; eauto).
    congruence.
  - intros H. destruct (contains sub s) eqn:E; [|reflexivity].
    apply contains_true in E as (t & r & E). now apply H in E.
Qed.

(** Under the guard [sep in text] the split has two parts. *)
Lemma split1_two_parts sep s :
  contains sep s = true -> exists a b, split1 sep s = [a; b].
Proof.
  unfold contains, split1. destruct (find sep s); [eauto | discriminate].
Qed.

Lemma first_split_find sep s t r :
  first_split sep s t r -> find sep s = Some (length t).
Proof.
  intros [E Hmin].
  destruct (find sep s) as [i|] eqn:F.
  - f_equal.
    pose proof (find_Some _ _ _ F) as [_ Hleft].
    pose proof (find_Some_split _ _ _ F) as Hsplit.
    apply Hmin in Hsplit. rewrite length_firstn in Hsplit.
    destruct (Nat.lt_ge_cases (length t) i) as [Hlt|Hge]; [|lia].
    specialize (Hleft _ Hlt). rewrite E in Hleft.
    now rewrite occurrence_at in Hleft.
  - pose proof (find_None _ _ F (length t)) as H. rewrite E in H.
    now rewrite occurrence_at in H.
Qed.

(** [text.split(sep, 1)] cuts at the leftmost occurrence. *)
Lemma unpack2_split1 sep s t r :
  first_split sep s t r -> unpack2 (split1 sep s) = (t, r).
Proof.
  intros H. unfold split1. rewrite (first_split_find _ _ _ _ H).
  destruct H as [-> _]. simpl. f_equal.
  - apply firstn_length_app.
  - rewrite Nat.add_comm, <- skipn_skipn, skipn_length_app.
    apply skipn_length_app.
Qed.

Lemma first_split_contains sep s t r :
  first_split sep s t r -> contains sep s = true.
Proof. intros [E _]. apply contains_true. eauto. Qed.

(** The occurrence [find] reports is a leftmost split. *)
Lemma find_first_split sep s i :
  find sep s = Some i ->
  first_split sep s (firstn i s) (skipn (i + length sep) s).
Proof.
  intros F. split; [now apply find_Some_split|].
  intros t' r' E. rewrite length_firstn.
  destruct (Nat.lt_ge_cases (length t') i) as [Hlt|Hge]; [|lia].
  apply find_Some in F as [_ Hleft]. specialize (Hleft _ Hlt).
  rewrite E in Hleft. now rewrite occurrence_at in Hleft.
Qed.

End StringFacts.

(* ================================================================== *)
(** * Facts about stripped text *)
(* ================================================================== *)

Lemma nonspace_head_not_nil s : nonspace_head s -> s <> [].
Proof. intros (c & r & -> & _). discriminate. Qed.

Lemma lstrip_head s : lstrip s = [] \/ nonspace_head (lstrip s).
Proof.
  induction s as [|c s IH]; simpl; [now left|].
  destruct (isspace c) eqn:E; [exact IH|].
  right. now exists c, s.
Qed.

Lemma lstrip_app_nonspace l c :
  isspace c = false -> exists l', lstrip (l ++ [c]) = l' ++ [c].
Proof.
  intros Hc. induction l as [|x l IH]; simpl.
  - rewrite Hc. now exists [].
  - destruct (isspace x); [exact IH|]. now exists (x :: l).
Qed.

Lemma rstrip_head c r :
  isspace c = false -> exists r', rstrip (c :: r) = c :: r'.
Proof.
  intros Hc. unfold rstrip. simpl rev.
  destruct (lstrip_app_nonspace (rev r) c Hc) as [l' ->].
  rewrite rev_app_distr. simpl. now exists (rev l').
Qed.

Lemma strip_head s : strip s = [] \/ nonspace_head (strip s).
Proof.
  unfold strip. destruct (lstrip_head s) as [-> | (c & r & -> & Hc)].
  - now left.
  - right. destruct (rstrip_head c r Hc) as [r' ->]. now exists c, r'.
Qed.

(** A final [strip()] keeps a string that starts with a kept character
    non-empty. *)
Lemma strip_nonspace_head s : nonspace_head s -> nonspace_head (strip s).
Proof.
  intros (c & r & -> & Hc). unfold strip. simpl. rewrite Hc.
  destruct (rstrip_head c r Hc) as [r' ->]. now exists c, r'.
Qed.

Lemma stripped_strings_heads n :
  Forall nonspace_head (stripped_strings n).
Proof.
  apply Forall_forall. intros p Hp. unfold stripped_strings in Hp.
  apply filter_In in Hp as [Hp Ht]. apply in_flat_map in Hp as (d & _ & Hd).
  destruct d as [? ? ? ?|s|s]; simpl in Hd; try contradiction.
  destruct Hd as [<-|[]].
  destruct (strip_head s) as [E|H]; [|exact H].
  rewrite E in Ht. discriminate.
Qed.

Lemma join_head sep p ps :
  nonspace_head p -> nonspace_head (join sep (p :: ps)).
Proof.
  intros (c & r & -> & Hc). destruct ps; simpl; now eexists c, _.
Qed.

(** The text [get_text(sep, strip=True)] returns is empty or starts with
    a character that is not white space. *)
Lemma get_text_head sep n :
  get_text sep n = [] \/ nonspace_head (get_text sep n).
Proof.
  unfold get_text. pose proof (stripped_strings_heads n) as H.
  destruct (stripped_strings n) as [|p ps]; [now left|].
  right. apply join_head. now inversion H.
Qed.

Lemma truthy_get_text_head sep n :
  truthy (get_text sep n) = true -> nonspace_head (get_text sep n).
Proof.
  destruct (get_text_head sep n) as [->|H]; [discriminate | now intros _].
Qed.

Lemma SEP_EN_DASH_space_led : space_led SEP_EN_DASH.
Proof. now exists 32%N, ([EN_DASH] ++ str " "). Qed.

Lemma SEP_HYPHEN_space_led : space_led SEP_HYPHEN.
Proof. now exists 32%N, (str "- "). Qed.

(** Splitting a text that starts with a kept character on a separator
    that starts with white space leaves a title with that start. *)
Lemma split_title_head sep text :
  space_led sep ->
  nonspace_head text ->
  contains sep text = true ->
  nonspace_head (fst (unpack2 (split1 sep text))).
Proof.
  intros (c0 & sep' & -> & Hc0) (c & r & -> & Hc). unfold contains, split1.
  destruct (find (c0 :: sep') (c :: r)) as [i|] eqn:F; [|discriminate].
  intros _. destruct i as [|i].
  - apply find_Some in F as [F _]. simpl in F.
    apply andb_prop in F as [F _]. apply N.eqb_eq in F. congruence.
  - simpl. now exists c, (firstn i r).
Qed.

(* ================================================================== *)
(** * Facts about the lyric-page pattern *)
(* ================================================================== *)

Lemma dot_plus_rests_spec s rest :
  In rest (dot_plus_rests s) <->
  exists pre, pre <> [] /\ Forall (fun c => c <> LF) pre /\ s = pre ++ rest.
Proof.
  split.
  - revert rest; induction s as [|c s IH]; intros rest; simpl; [tauto|].
    destruct (N.eqb_spec c LF) as [->|Hc]; [simpl; tauto|].
    intros H. apply in_app_or in H as [H|[<-|[]]].
    + destruct (IH _ H) as (pre & _ & Hpre & ->).
      exists (c :: pre). repeat split; [discriminate | now constructor].
    + exists [c]. repeat split; [discriminate | now repeat constructor].
  - intros (pre & Hne & Hpre & ->).
    induction Hpre as [|c pre Hc Hpre IH]; [congruence|]. simpl.
    destruct (N.eqb_spec c LF) as [E|_]; [contradiction|].
    apply in_or_app. destruct pre as [|c' pre'].
    + right. now left.
    + left. apply IH. discriminate.
Qed.

Lemma rests_spec r : forall s rest, In rest (rests r s) <-> leaves r s rest.
Proof.
  induction r as [p|r IH| |r1 IH1 r2 IH2|]; intros s rest; simpl.
  - destruct (startswith p s) eqn:E; simpl.
    + apply startswith_inv in E. split.
      * intros [<-|[]]. exact E.
      * intros ->. left. apply skipn_length_app.
    + split; [tauto|]. intros ->. now rewrite startswith_app in E.
  - rewrite in_app_iff, IH. simpl. intuition congruence.
  - apply dot_plus_rests_spec.
  - rewrite in_flat_map. split.
    + intros (mid & H1 & H2). exists mid. now rewrite <- IH1, <- IH2.
    + intros (mid & H1 & H2). exists mid. now rewrite IH1, IH2.
  - destruct s as [|c [|c' s]]; simpl.
    + intuition congruence.
    + destruct (N.eqb_spec c LF) as [->|Hc]; simpl.
      * intuition congruence.
      * split; [tauto|]. intros [_ [H|H]]; congruence.
    + split; [tauto|]. intros [_ [H|H]]; discriminate.
Qed.

Lemma re_match_spec r s :
  re_match r s = true <-> exists rest, leaves r s rest.
Proof.
  unfold re_match. split.
  - destruct (rests r s) as [|rest l] eqn:E; [discriminate|].
    intros _. exists rest. apply rests_spec. rewrite E. now left.
  - intros (rest & H). apply rests_spec in H.
    destruct (rests r s); [contradiction | reflexivity].
Qed.

Lemma LYRICS_URL_RE_spec url :
  re_match LYRICS_URL_RE url = true <-> lyrics_url_shape url.
Proof.
  rewrite re_match_spec. unfold LYRICS_URL_RE, lyrics_url_shape.
  cbn [leaves]. split.
  - intros (rest & m1 & -> & m2 & Hs & m3 & -> & m4
            & (slug & Hne & Hslug & ->) & m5 & -> & m6 & Hslash & -> & Heol).
    destruct Hs as [->| <-], Hslash as [->| <-].
    + exists (str "https"), slug, (str "/"), m6. now repeat split; auto.
    + exists (str "https"), slug, [], m6. now repeat split; auto.
    + exists (str "http"), slug, (str "/"), m6. now repeat split; auto.
    + exists (str "http"), slug, [], m6. now repeat split; auto.
  - intros (scheme & slug & slash & eol & Hs & Hne & Hslug & Hslash & Heol & ->).
    exists eol, (skipn 4 scheme ++ str "://genius.com/" ++ slug
                 ++ str "-lyrics" ++ slash ++ eol).
    split; [now destruct Hs as [->| ->]|].
    exists (str "://genius.com/" ++ slug ++ str "-lyrics" ++ slash ++ eol).
    split; [destruct Hs as [->| ->]; [now right | now left]|].
    eexists. split; [reflexivity|].
    exists (str "-lyrics" ++ slash ++ eol). split; [now exists slug|].
    exists (slash ++ eol). split; [reflexivity|].
    exists eol. split; [destruct Hslash as [->| ->]; [now right | now left]|].
    now split.
Qed.

(* ================================================================== *)
(** * Facts about the scanning loops *)
(* ================================================================== *)

Section Collect.

Variable body : node -> option candidate.
Variable max_songs : Z.

(** Once [results] is full the loop breaks at once. *)
Lemma collect_full anchors results :
  (Z.of_nat (length results) >= max_songs)%Z ->
  collect body max_songs anchors results = results.
Proof.
  intros H. destruct anchors as [|a rest]; simpl; [reflexivity|].
  destruct (Z.geb_spec (Z.of_nat (length results)) max_songs); [reflexivity|lia].
Qed.

Lemma collect_Forall (P : candidate -> Prop) anchors :
  (forall a c, body a = Some c -> P c) ->
  forall results,
    Forall P results -> Forall P (collect body max_songs anchors results).
Proof.
  intros Hbody. induction anchors as [|a rest IH]; intros results Hres; simpl.
  - exact Hres.
  - destruct (Z.of_nat (length results) >=? max_songs)%Z; [exact Hres|].
    destruct (body a) as [c|] eqn:E; apply IH; [|exact Hres].
    apply Forall_app. split; [exact Hres|]. constructor; eauto.
Qed.

Lemma collect_length anchors :
  forall results,
    (Z.of_nat (length results) <= Z.max 0 max_songs)%Z ->
    (Z.of_nat (length (collect body max_songs anchors results))
     <= Z.max 0 max_songs)%Z.
Proof.
  induction anchors as [|a rest IH]; intros results Hres; simpl.
  - exact Hres.
  - destruct (Z.geb_spec (Z.of_nat (length results)) max_songs) as [Hge|Hlt];
      [exact Hres|].
    destruct (body a) as [c|]; apply IH; [|exact Hres].
    rewrite length_app. simpl. lia.
Qed.

(** Anchors the body passes over can be left out of the scan. *)
Lemma collect_filter (keep : node -> bool) anchors :
  (forall a, keep a = false -> body a = None) ->
  forall results,
    collect body max_songs (filter keep anchors) results
    = collect body max_songs anchors results.
Proof.
  intros Hkeep. induction anchors as [|a rest IH]; intros results; simpl.
  - reflexivity.
  - destruct (keep a) eqn:K; simpl.
    + destruct (Z.of_nat (length results) >=? max_songs)%Z; [reflexivity|].
      destruct (body a); apply IH.
    + rewrite (Hkeep _ K), IH.
      destruct (Z.geb_spec (Z.of_nat (length results)) max_songs) as [Hge|Hlt];
        [|reflexivity].
      apply collect_full. lia.
Qed.

End Collect.

Lemma mini_card_entry_skips a :
  lyric_link a = false -> mini_card_entry a = None.
Proof. unfold lyric_link, mini_card_entry. now intros ->. Qed.

Lemma anchor_entry_skips a :
  lyric_link a = false -> anchor_entry a = None.
Proof. unfold lyric_link, anchor_entry. now intros ->. Qed.

Lemma mini_card_entry_url a c :
  mini_card_entry a = Some c -> lyrics_url_shape (url c).
Proof.
  unfold mini_card_entry.
  destruct (re_match LYRICS_URL_RE _) eqn:E; [|discriminate]. simpl.
  destruct (mini_card_title_artist a) as [t ar].
  destruct (truthy t); [|discriminate]. intros [= <-]. simpl.
  now apply LYRICS_URL_RE_spec.
Qed.

Lemma anchor_entry_url a c :
  anchor_entry a = Some c -> lyrics_url_shape (url c).
Proof.
  unfold anchor_entry.
  destruct (re_match LYRICS_URL_RE _) eqn:E; [|discriminate]. simpl.
  destruct (truthy (get_text (str " ") a)); [|discriminate]. simpl.
  destruct (if contains SEP_EN_DASH _ then _ else _) as [t ar].
  intros [= <-]. simpl. now apply LYRICS_URL_RE_spec.
Qed.

(** The title a mini card resolves to is empty or starts with a
    character [strip()] keeps. *)
Lemma mini_card_title_head a :
  truthy (fst (mini_card_title_artist a)) = true ->
  nonspace_head (fst (mini_card_title_artist a)).
Proof.
  unfold mini_card_title_artist.
  destruct (truthy (text_or_empty (select_one_class (str "mini_card-title") a)))
    eqn:T; simpl.
  - intros _. destruct (select_one_class (str "mini_card-title") a) as [e|];
      simpl in *; [|discriminate].
    now apply truthy_get_text_head.
  - destruct (contains SEP_EN_DASH (get_text (str " ") a)) eqn:C1.
    { intros H. apply split_title_head; auto using SEP_EN_DASH_space_led.
      destruct (get_text_head (str " ") a) as [E|Hh]; [|exact Hh].
      rewrite E in C1. discriminate. }
    destruct (contains SEP_HYPHEN (get_text (str " ") a)) eqn:C2.
    { intros H. apply split_title_head; auto using SEP_HYPHEN_space_led.
      destruct (get_text_head (str " ") a) as [E|Hh]; [|exact Hh].
      rewrite E in C2. discriminate. }
    simpl. apply truthy_get_text_head.
Qed.

Lemma mini_card_entry_title a c :
  mini_card_entry a = Some c -> song_title c <> [].
Proof.
  unfold mini_card_entry.
  destruct (re_match LYRICS_URL_RE _); [|discriminate]. simpl.
  pose proof (mini_card_title_head a) as H.
  destruct (mini_card_title_artist a) as [t ar]. simpl in H.
  destruct (truthy t); [|discriminate]. intros [= <-]. simpl.
  apply nonspace_head_not_nil, strip_nonspace_head. now apply H.
Qed.

Lemma anchor_entry_title a c :
  anchor_entry a = Some c -> song_title c <> [].
Proof.
  unfold anchor_entry.
  destruct (re_match LYRICS_URL_RE _); [|discriminate]. simpl.
  destruct (truthy (get_text (str " ") a)) eqn:T; [|discriminate]. simpl.
  apply truthy_get_text_head in T.
  destruct (contains SEP_EN_DASH (get_text (str " ") a)) eqn:C1.
  { pose proof (split_title_head _ _ SEP_EN_DASH_space_led T C1) as H.
    destruct (unpack2 (split1 SEP_EN_DASH _)) as [t ar]. intros [= <-]. simpl.
    now apply nonspace_head_not_nil, strip_nonspace_head. }
  destruct (contains SEP_HYPHEN (get_text (str " ") a)) eqn:C2.
  { pose proof (split_title_head _ _ SEP_HYPHEN_space_led T C2) as H.
    destruct (unpack2 (split1 SEP_HYPHEN _)) as [t ar]. intros [= <-]. simpl.
    now apply nonspace_head_not_nil, strip_nonspace_head. }
  intros [= <-]. simpl.
  now apply nonspace_head_not_nil, strip_nonspace_head.
Qed.

(** Every entry of the result comes out of one of the two loop bodies. *)
Lemma parse_search_results_Forall (P : candidate -> Prop) soup max_songs :
  (forall a c, mini_card_entry a = Some c -> P c) ->
  (forall a c, anchor_entry a = Some c -> P c) ->
  Forall P (parse_search_results soup max_songs).
Proof.
  intros H1 H2. unfold parse_search_results, parse_anchors.
  pose proof (collect_Forall mini_card_entry max_songs P
                (select_a_mini_card soup) H1 [] (Forall_nil _)) as H.
  destruct (collect mini_card_entry max_songs (select_a_mini_card soup) []);
    [|exact H].
  now apply collect_Forall.
Qed.

(* ================================================================== *)
(** * Facts about the scrape run *)
(* ================================================================== *)

Section Run.

Variable env : services.

Lemma fetch_html_sync_run url proxy_url w :
  fetch_html_sync env url proxy_url w =
  match requests_get env (requests_sent w) url (proxies_for proxy_url) with
  | Response status text =>
      if is_error_status status
      then (Raised (HTTPError (Some status)), sent w)
      else (Returned text, sent w)
  | TimedOut => (Raised Timeout, sent w)
  | Unreachable => (Raised ConnectionError, sent w)
  | Raises e => (Raised e, sent w)
  end.
Proof.
  unfold fetch_html_sync.
  destruct (requests_get env _ url _) as [status text| | |e]; try reflexivity.
  unfold bind, raise_for_status. now destruct (is_error_status status).
Qed.

(** One turn of the loop over the candidates, by the reply to its
    request. *)
Lemma song_page_run search_query proxy_url c w :
  song_page env search_query proxy_url c w =
  match requests_get env (requests_sent w) (url c) (proxies_for proxy_url) with
  | Response status text =>
      if is_error_status status
      then (Returned tt,
            pushed (song_failure_record search_query c status) (sent w))
      else (Returned tt,
            pushed (song_success_record env search_query c text) (sent w))
  | TimedOut => (Raised Timeout, sent w)
  | Unreachable => (Raised ConnectionError, sent w)
  | Raises e =>
      match e with
      | HTTPError status =>
          (Returned tt,
           pushed (song_http_failure_record search_query c status) (sent w))
      | _ => (Raised e, sent w)
      end
  end.
Proof.
  unfold song_page, bind at 1, try_except_HTTPError, bind at 1.
  rewrite fetch_html_sync_run.
  destruct (requests_get env _ (url c) _) as [status text| | |e];
    try reflexivity.
  - now destruct (is_error_status status).
  - now destruct e.
Qed.

Lemma for_each_app {A} (pre post : list A) (body : A -> Actor unit) w :
  for_each (pre ++ post) body w =
  match for_each pre body w with
  | (Returned _, w1) => for_each post body w1
  | (Raised e, w1) => (Raised e, w1)
  end.
Proof.
  revert w; induction pre as [|x pre IH]; intros w; simpl; [reflexivity|].
  unfold bind. destruct (body x w) as [[[]|e] w1]; [apply IH | reflexivity].
Qed.

(** The run up to the reply of the search page. *)
Lemma main_run actor_input search_query :
  Input.searchQuery actor_input = Some search_query ->
  truthy search_query = true ->
  main env actor_input start =
  match requests_get env 0 (search_url_of env search_query)
                     (proxies_for (proxy_url_of env)) with
  | Response status search_html =>
      if is_error_status status
      then (Returned tt,
            pushed (search_failure_record env search_query status) (sent start))
      else
        match parse_search_results (BeautifulSoup env search_html)
                                   (max_songs_of actor_input) with
        | [] => (Returned tt,
                 pushed (no_candidates_record env search_query) (sent start))
        | c :: cs =>
            for_each (c :: cs)
                     (song_page env search_query (proxy_url_of env))
                     (sent start)
        end
  | TimedOut => (Raised Timeout, sent start)
  | Unreachable => (Raised ConnectionError, sent start)
  | Raises e =>
      match e with
      | HTTPError status =>
          (Returned tt,
           pushed (search_http_failure_record env search_query status)
                  (sent start))
      | _ => (Raised e, sent start)
      end
  end.
Proof.
  intros Hq Ht. unfold main. rewrite Hq, Ht. cbn [negb].
  unfold bind at 1, try_except_HTTPError, bind at 1.
  rewrite fetch_html_sync_run. change (requests_sent start) with 0%nat.
  destruct (requests_get env 0 _ _) as [status html| | |e]; try reflexivity.
  - destruct (is_error_status status); [reflexivity|].
    cbv beta iota delta [ret].
    destruct (parse_search_results _ _); reflexivity.
  - now destruct e.
Qed.

End Run.

(* ================================================================== *)
(** * Properties of the Search Result Extractor *)
(* ================================================================== *)

Lemma parse_search_results_bound soup max_songs :
  (Z.of_nat (length (parse_search_results soup max_songs))
   <= Z.max 0 max_songs)%Z.
Proof.
  unfold parse_search_results, parse_anchors.
  pose proof (collect_length mini_card_entry max_songs
                (select_a_mini_card soup) []) as H.
  destruct (collect mini_card_entry max_songs (select_a_mini_card soup) []).
  - apply collect_length. simpl. lia.
  - apply H. simpl. lia.
Qed.

Lemma parse_search_results_nonpositive soup max_songs :
  (max_songs <= 0)%Z -> parse_search_results soup max_songs = [].
Proof.
  intros H. unfold parse_search_results, parse_anchors.
  rewrite collect_full by (simpl; lia).
  apply collect_full. simpl. lia.
Qed.

(** C5, as the code has it: the result of [parse_search_results] has at
    most [max_songs] entries whenever [max_songs] is not negative, in both
    layouts; for a negative [max_songs] it is empty (so its length, 0, is
    above [max_songs]). *)
Theorem parse_search_results_length soup max_songs :
  ((0 <= max_songs)%Z ->
   (Z.of_nat (length (parse_search_results soup max_songs)) <= max_songs)%Z)
  /\ ((max_songs < 0)%Z -> parse_search_results soup max_songs = []).
Proof.
  split; intros H.
  - pose proof (parse_search_results_bound soup max_songs). lia.
  - apply parse_search_results_nonpositive. lia.
Qed.

Lemma parse_search_results_length_witness :
  (Z.of_nat (length (parse_search_results page_two_links 1)) <= 1)%Z
  /\ (Z.of_nat (length (parse_search_results page_mini_cards 1)) <= 1)%Z
  /\ parse_search_results page_two_links (-1) = [].
Proof.
  split; [|split].
  - apply (proj1 (parse_search_results_length page_two_links 1)). lia.
  - apply (proj1 (parse_search_results_length page_mini_cards 1)). lia.
  - apply (proj2 (parse_search_results_length page_two_links (-1))). lia.
Defined.

(** C5 as stated fails at [max_songs = -1]: the result is empty, and its
    length 0 is not at most -1. *)
Lemma parse_search_results_length_negative :
  ~ (Z.of_nat (length (parse_search_results page_two_links (-1))) <= -1)%Z.
Proof. vm_compute. intros H. now apply H. Qed.

(** C6: every candidate [parse_search_results] returns has a non-empty
    [song_title]; an anchor whose resolved title is empty, in the first
    layout, or whose text is empty, in the second, yields no candidate. *)
Theorem returned_titles_nonempty soup max_songs :
  (forall c, In c (parse_search_results soup max_songs) -> song_title c <> [])
  /\ (forall a, fst (mini_card_title_artist a) = [] -> mini_card_entry a = None)
  /\ (forall a, get_text (str " ") a = [] -> anchor_entry a = None).
Proof.
  split; [|split].
  - apply Forall_forall, parse_search_results_Forall.
    + exact mini_card_entry_title.
    + exact anchor_entry_title.
  - intros a H. unfold mini_card_entry.
    destruct (re_match LYRICS_URL_RE _); [|reflexivity]. simpl.
    destruct (mini_card_title_artist a) as [t ar]. simpl in H. now subst t.
  - intros a H. unfold anchor_entry.
    destruct (re_match LYRICS_URL_RE _); [|reflexivity]. simpl.
    now rewrite H.
Qed.

Lemma returned_titles_nonempty_witness :
  song_title {| url := str "https://genius.com/Queen-killer-queen-lyrics";
                song_title := str "Killer Queen";
                artist_name := [] |} <> []
  /\ mini_card_entry
       (a_mini_card (str "https://genius.com/Queen-untitled-lyrics") []) = None.
Proof.
  split.
  - apply (proj1 (returned_titles_nonempty page_mini_cards 5)).
    vm_compute. right. left. reflexivity.
  - apply (proj1 (proj2 (returned_titles_nonempty page_mini_cards 5))).
    reflexivity.
Defined.

(** C7 as stated fails on a link with the scheme [http]: the candidate
    is returned, and its URL is not of the form
    [https://genius.com/<slug>-lyrics]. *)
Lemma http_candidate_returned :
  In {| url := str "http://genius.com/a-lyrics";
        song_title := str "Alpha";
        artist_name := [] |}
     (parse_search_results page_http_link 1)
  /\ ~ spec_lyric_page_url (str "http://genius.com/a-lyrics").
Proof.
  split.
  - vm_compute. left. reflexivity.
  - intros (slug & _ & [H|H]); vm_compute in H; discriminate H.
Qed.

(** C7, as the code has it: every candidate [parse_search_results]
    returns has a URL that [LYRICS_URL_RE] accepts, that is: the scheme
    [http] or [https], then [://genius.com/], a slug that is not empty and
    holds no line feed, [-lyrics], an optional slash and an optional final
    line feed; anchors whose [href] the pattern rejects are passed over and
    do not count toward [max_songs], so the result is that of scanning the
    accepted anchors alone. *)
Theorem candidate_urls_match soup max_songs :
  (forall c, In c (parse_search_results soup max_songs) ->
             lyrics_url_shape (url c))
  /\ parse_search_results soup max_songs
     = parse_anchors max_songs
                     (filter lyric_link (select_a_mini_card soup))
                     (filter lyric_link (find_all_a_href soup)).
Proof.
  split.
  - apply Forall_forall, parse_search_results_Forall.
    + exact mini_card_entry_url.
    + exact anchor_entry_url.
  - unfold parse_search_results, parse_anchors.
    rewrite (collect_filter mini_card_entry max_songs lyric_link
               (select_a_mini_card soup) mini_card_entry_skips).
    now rewrite (collect_filter anchor_entry max_songs lyric_link
                   (find_all_a_href soup) anchor_entry_skips).
Qed.

Lemma candidate_urls_match_witness :
  lyrics_url_shape (str "https://genius.com/Queen-killer-queen-lyrics").
Proof.
  apply (proj1 (candidate_urls_match page_two_links 2)
               {| url := str "https://genius.com/Queen-killer-queen-lyrics";
                  song_title := str "Killer Queen";
                  artist_name := str "Queen" |}).
  vm_compute. right. left. reflexivity.
Defined.

(** C8 as stated fails on a card with a title sub-element and no subtitle
    sub-element: the absent subtitle does not make the extractor fall back
    to the flattened text "Alpha – Beta", the artist stays empty. *)
Lemma absent_subtitle_no_fallback :
  text_or_empty (select_one_class (str "mini_card-subtitle") card_title_only) = []
  /\ get_text (str " ") card_title_only = str "Alpha" ++ SEP_EN_DASH ++ str "Beta"
  /\ spec_fallback_split (get_text (str " ") card_title_only)
     = (str "Alpha", str "Beta")
  /\ mini_card_title_artist card_title_only = (str "Alpha", [])
  /\ mini_card_title_artist card_title_only
     <> spec_fallback_split (get_text (str " ") card_title_only).
Proof.
  repeat split; try reflexivity. vm_compute. discriminate.
Qed.

(** C8, as the code has it: in the first layout the extractor falls back
    to the anchor's flattened text exactly when the title sub-element is
    absent or yields empty text (an absent or empty subtitle alone changes
    nothing: title and artist are then the texts of the two sub-elements).
    The fallback splits the text at the leftmost [" – "], or else at the
    leftmost [" - "]; with neither separator the whole text is the title
    and the artist stays the subtitle's text, empty when there is none. *)
Theorem mini_card_fallback a :
  let title := text_or_empty (select_one_class (str "mini_card-title") a) in
  let subtitle :=
    text_or_empty (select_one_class (str "mini_card-subtitle") a) in
  let text := get_text (str " ") a in
  (title <> [] -> mini_card_title_artist a = (title, subtitle))
  /\ (title = [] ->
      (forall t r, first_split SEP_EN_DASH text t r ->
                   mini_card_title_artist a = (t, r))
      /\ ((forall t r, text <> t ++ SEP_EN_DASH ++ r) ->
          (forall t r, first_split SEP_HYPHEN text t r ->
                       mini_card_title_artist a = (t, r))
          /\ ((forall t r, text <> t ++ SEP_HYPHEN ++ r) ->
              mini_card_title_artist a = (text, subtitle)))).
Proof.
  intros title subtitle text. unfold mini_card_title_artist.
  fold title subtitle text. split.
  - intros H. destruct title; [contradiction | reflexivity].
  - intros ->. cbn [truthy negb]. split; [|intros Hno; split].
    + intros t r H. rewrite (first_split_contains _ _ _ _ H).
      now apply unpack2_split1.
    + intros t r H. apply contains_false in Hno. rewrite Hno.
      rewrite (first_split_contains _ _ _ _ H). now apply unpack2_split1.
    + intros Hno2. apply contains_false in Hno, Hno2. now rewrite Hno, Hno2.
Qed.

Lemma mini_card_fallback_witness :
  mini_card_title_artist card_title_only = (str "Alpha", [])
  /\ mini_card_title_artist card_plain_text = (str "Alpha", str "Beta")
  /\ mini_card_title_artist card_hyphen_text = (str "Alpha", str "Beta - Gamma")
  /\ mini_card_title_artist card_subtitle_only = (str "Beta", str "Beta").
Proof.
  split; [|split; [|split]].
  - apply (proj1 (mini_card_fallback card_title_only)). discriminate.
  - apply (proj1 (proj2 (mini_card_fallback card_plain_text) eq_refl)).
    exact (find_first_split SEP_EN_DASH (get_text (str " ") card_plain_text)
                            5 eq_refl).
  - apply (proj1 (proj2 (proj2 (mini_card_fallback card_hyphen_text) eq_refl)
                        (proj1 (contains_false SEP_EN_DASH
                                  (get_text (str " ") card_hyphen_text))
                               eq_refl))).
    exact (find_first_split SEP_HYPHEN (get_text (str " ") card_hyphen_text)
                            5 eq_refl).
  - apply (proj2 (proj2 (proj2 (mini_card_fallback card_subtitle_only) eq_refl)
                        (proj1 (contains_false SEP_EN_DASH
                                  (get_text (str " ") card_subtitle_only))
                               eq_refl))).
    exact (proj1 (contains_false SEP_HYPHEN
                    (get_text (str " ") card_subtitle_only)) eq_refl).
Defined.

(* ================================================================== *)
(** * Properties of the scrape run *)
(* ================================================================== *)

Section RunInvariants.

Variable env : services.
Variable search_query : pystr.
Variable proxy_url : option pystr.

Lemma song_page_dataset c w :
  Forall error_means_no_lyrics (dataset w) ->
  Forall error_means_no_lyrics
         (dataset (snd (song_page env search_query proxy_url c w))).
Proof.
  intros H. rewrite song_page_run.
  destruct (requests_get env _ (url c) _) as [status text| | |e];
    try exact H.
  - destruct (is_error_status status); simpl;
      (apply Forall_app; split; [exact H|]);
      (apply Forall_cons; [|apply Forall_nil]).
    + intros _. reflexivity.
    + intros E. now contradiction E.
  - destruct e; try exact H. simpl.
    apply Forall_app. split; [exact H|].
    apply Forall_cons; [|apply Forall_nil]. intros _. reflexivity.
Qed.

Lemma for_each_dataset cs :
  forall w,
    Forall error_means_no_lyrics (dataset w) ->
    Forall error_means_no_lyrics
           (dataset (snd (for_each cs (song_page env search_query proxy_url) w))).
Proof.
  induction cs as [|c cs IH]; intros w H; simpl; [exact H|].
  unfold bind. pose proof (song_page_dataset c w H) as Hc.
  destruct (song_page env search_query proxy_url c w) as [[[]|e] w1].
  - now apply IH.
  - exact Hc.
Qed.


End RunInvariants.




(** C2: when the search page answers with an HTTP error status, the run
    pushes exactly one record, with [songTitle] and [artistName] null,
    [lyricsText] empty and an [error] that embeds the status code, and
    returns after that one request, without fetching any candidate page. *)
Theorem search_failure_is_terminal env actor_input search_query status body :
  Input.searchQuery actor_input = Some search_query ->
  truthy search_query = true ->
  requests_get env 0 (search_url_of env search_query)
               (proxies_for (proxy_url_of env)) = Response status body ->
  is_error_status status = true ->
  main env actor_input start
  = (Returned tt,
     {| dataset :=
          [{| LyricsRecord.searchQuery := search_query;
              LyricsRecord.songTitle := None;
              LyricsRecord.artistName := None;
              LyricsRecord.url := search_url_of env search_query;
              LyricsRecord.lyricsText := [];
              LyricsRecord.error :=
                Some (str "Failed to fetch search page (status="
                      ++ str_of_int status ++ str ")") |}];
        requests_sent := 1 |}).
Proof.
  intros Hq Ht Hreply Hstatus.
  rewrite (main_run env actor_input search_query Hq Ht), Hreply, Hstatus.
  reflexivity.
Qed.

Lemma search_failure_is_terminal_witness :
  main (sample_services search_forbidden) (sample_input 1) start
  = (Returned tt,
     {| dataset :=
          [{| LyricsRecord.searchQuery := str "Bohemian Rhapsody";
              LyricsRecord.songTitle := None;
              LyricsRecord.artistName := None;
              LyricsRecord.url :=
                str "https://genius.com/search?q=Bohemian+Rhapsody";
              LyricsRecord.lyricsText := [];
              LyricsRecord.error :=
                Some (str "Failed to fetch search page (status=403)") |}];
        requests_sent := 1 |}).
Proof.
  apply (search_failure_is_terminal (sample_services search_forbidden)
           (sample_input 1) (str "Bohemian Rhapsody") 403 []);
    reflexivity.
Defined.

(** C3: when the page of one candidate answers with an HTTP error status,
    the run pushes for that candidate a record with empty [lyricsText] and
    an [error] that embeds the status code, and goes on with every
    remaining candidate: the run is then the loop over the candidates after
    it, from the state with that record pushed. *)
Theorem song_failure_is_isolated
        env actor_input search_query status0 search_html
        before c after w1 status body :
  Input.searchQuery actor_input = Some search_query ->
  truthy search_query = true ->
  requests_get env 0 (search_url_of env search_query)
               (proxies_for (proxy_url_of env))
  = Response status0 search_html ->
  is_error_status status0 = false ->
  parse_search_results (BeautifulSoup env search_html)
                       (max_songs_of actor_input)
  = before ++ c :: after ->
  for_each before (song_page env search_query (proxy_url_of env)) (sent start)
  = (Returned tt, w1) ->
  requests_get env (requests_sent w1) (url c) (proxies_for (proxy_url_of env))
  = Response status body ->
  is_error_status status = true ->
  main env actor_input start
  = for_each after (song_page env search_query (proxy_url_of env))
      {| dataset :=
           dataset w1
           ++ [{| LyricsRecord.searchQuery := search_query;
                  LyricsRecord.songTitle := Some (song_title c);
                  LyricsRecord.artistName := Some (artist_name c);
                  LyricsRecord.url := url c;
                  LyricsRecord.lyricsText := [];
                  LyricsRecord.error :=
                    Some (str "Failed to fetch song page (status="
                          ++ str_of_int status ++ str ")") |}];
         requests_sent := S (requests_sent w1) |}.
Proof.
  intros Hq Ht Hreply0 Hstatus0 Hparse Hbefore Hreply Hstatus.
  rewrite (main_run env actor_input search_query Hq Ht), Hreply0, Hstatus0.
  rewrite Hparse.
  transitivity (for_each (before ++ c :: after)
                  (song_page env search_query (proxy_url_of env)) (sent start)).
  { now destruct before. }
  rewrite for_each_app, Hbefore. simpl. unfold bind at 1.
  rewrite song_page_run, Hreply, Hstatus. reflexivity.
Qed.

Lemma song_failure_is_isolated_witness :
  main (sample_services first_song_missing) (sample_input 2) start
  = for_each [killer_queen]
      (song_page (sample_services first_song_missing)
                 (str "Bohemian Rhapsody") None)
      {| dataset :=
           [{| LyricsRecord.searchQuery := str "Bohemian Rhapsody";
               LyricsRecord.songTitle := Some (str "Bohemian Rhapsody");
               LyricsRecord.artistName := Some (str "Queen");
               LyricsRecord.url :=
                 str "https://genius.com/Queen-bohemian-rhapsody-lyrics";
               LyricsRecord.lyricsText := [];
               LyricsRecord.error :=
                 Some (str "Failed to fetch song page (status=404)") |}];
         requests_sent := 2 |}.
Proof.
  apply (song_failure_is_isolated (sample_services first_song_missing)
           (sample_input 2) (str "Bohemian Rhapsody") 200 search_markup
           [] bohemian_rhapsody [killer_queen] (sent start) 404 []);
    reflexivity.
Defined.

(** The whole sample run: the failure of the first song page is recorded
    and the second candidate is still processed. *)
Example first_song_missing_run :
  main (sample_services first_song_missing) (sample_input 2) start
  = (Returned tt,
     {| dataset :=
          [{| LyricsRecord.searchQuery := str "Bohemian Rhapsody";
              LyricsRecord.songTitle := Some (str "Bohemian Rhapsody");
              LyricsRecord.artistName := Some (str "Queen");
              LyricsRecord.url :=
                str "https://genius.com/Queen-bohemian-rhapsody-lyrics";
              LyricsRecord.lyricsText := [];
              LyricsRecord.error :=
                Some (str "Failed to fetch song page (status=404)") |};
           {| LyricsRecord.searchQuery := str "Bohemian Rhapsody";
              LyricsRecord.songTitle := Some (str "Killer Queen");
              LyricsRecord.artistName := Some (str "Queen");
              LyricsRecord.url :=
                str "https://genius.com/Queen-killer-queen-lyrics";
              LyricsRecord.lyricsText := str "Line1" ++ [LF; LF] ++ str "Line2";
              LyricsRecord.error := None |}];
        requests_sent := 3 |}).
Proof. reflexivity. Qed.

(** C4: in every record the run pushes (for a failed search, for a search
    without candidates, or for a candidate), an [error] that is not null
    comes with an empty [lyricsText]. *)
Theorem error_implies_empty_lyrics env actor_input r :
  In r (dataset (snd (main env actor_input start))) ->
  LyricsRecord.error r <> None ->
  LyricsRecord.lyricsText r = [].
Proof.
  intros Hin.
  enough (H : Forall error_means_no_lyrics
                     (dataset (snd (main env actor_input start))))
    by exact (proj1 (Forall_forall _ _) H r Hin).
  clear r Hin.
  destruct (Input.searchQuery actor_input) as [search_query|] eqn:Hq.
  2: { unfold main. rewrite Hq. apply Forall_nil. }
  destruct (truthy search_query) eqn:Ht.
  2: { unfold main. rewrite Hq, Ht. apply Forall_nil. }
  rewrite (main_run env actor_input search_query Hq Ht).
  destruct (requests_get env 0 _ _) as [status html| | |e];
    try apply Forall_nil.
  - destruct (is_error_status status).
    { apply Forall_cons; [|apply Forall_nil]. now intros _. }
    destruct (parse_search_results _ _) as [|c cs].
    { apply Forall_cons; [|apply Forall_nil]. now intros _. }
    apply for_each_dataset. apply Forall_nil.
  - destruct e; try apply Forall_nil.
    apply Forall_cons; [|apply Forall_nil]. now intros _.
Qed.

Lemma error_implies_empty_lyrics_witness :
  LyricsRecord.lyricsText
    {| LyricsRecord.searchQuery := str "Bohemian Rhapsody";
       LyricsRecord.songTitle := Some (str "Bohemian Rhapsody");
       LyricsRecord.artistName := Some (str "Queen");
       LyricsRecord.url :=
         str "https://genius.com/Queen-bohemian-rhapsody-lyrics";
       LyricsRecord.lyricsText := [];
       LyricsRecord.error :=
         Some (str "Failed to fetch song page (status=404)") |} = [].
Proof.
  apply (error_implies_empty_lyrics (sample_services first_song_missing)
                                    (sample_input 2)).
  - vm_compute. left. reflexivity.
  - discriminate.
Defined.



(* ================================================================== *)
(** * Properties of the first-album lookup *)
(* ================================================================== *)

(** C9: when [call_ollama_json] returns a JSON object, the lookup
    [get_first_album_from_llm] raises if and only if the object has no
    ["tracks"] key or the value under it is not a list. *)
Theorem first_album_raises_iff env artist_name items :
  Agent.call_ollama_json env (Agent.first_album_prompt env artist_name)
  = Returned (Agent.JDict items) ->
  (exists e, Agent.get_first_album_from_llm env artist_name = Raised e)
  <-> (Agent.dict_get (str "tracks") items = None
       \/ exists v, Agent.dict_get (str "tracks") items = Some v
                    /\ Agent.is_list v = false).
Proof.
  intros Hcall. unfold Agent.get_first_album_from_llm. rewrite Hcall.
  simpl. destruct (Agent.dict_get (str "tracks") items) as [v|]; simpl.
  - destruct (Agent.is_list v) eqn:Hv; simpl; split.
    + intros [e H]. discriminate H.
    + intros [H|(v' & [= <-] & H)]; congruence.
    + intros _. right. now exists v.
    + intros _. eexists. reflexivity.
  - split; [now left | intros _; eexists; reflexivity].
Qed.

Lemma first_album_raises_iff_witness :
  (exists e,
      Agent.get_first_album_from_llm (sample_llm (str "songs")) (str "Queen")
      = Raised e)
  /\ ~ (exists e,
           Agent.get_first_album_from_llm (sample_llm (str "tracks"))
                                          (str "Queen")
           = Raised e).
Proof.
  split.
  - apply (proj2 (first_album_raises_iff
                    (sample_llm (str "songs")) (str "Queen")
                    [(str "songs", Agent.JList [])] eq_refl)).
    left. reflexivity.
  - intros H.
    apply (proj1 (first_album_raises_iff
                    (sample_llm (str "tracks")) (str "Queen")
                    [(str "tracks", Agent.JList [])] eq_refl)) in H.
    destruct H as [H|(v & H & Hv)]; [discriminate H|].
    injection H as <-. discriminate Hv.
Defined.

(* ================================================================== *)
(** * Further properties of the Search Result Extractor *)
(* ================================================================== *)

Lemma collect_entries body max_songs anchors :
  forall results,
    collect body max_songs anchors results
    = results ++ firstn (Z.to_nat max_songs - length results)
                        (entries body anchors).
Proof.
  induction anchors as [|a rest IH]; intros results; simpl.
  - now rewrite firstn_nil, app_nil_r.
  - destruct (Z.geb_spec (Z.of_nat (length results)) max_songs) as [Hge|Hlt].
    + replace (Z.to_nat max_songs - length results)%nat with 0%nat by lia.
      now rewrite app_nil_r.
    + destruct (body a) as [c|]; rewrite IH; [|reflexivity].
      rewrite <- app_assoc, length_app. simpl.
      replace (Z.to_nat max_songs - length results)%nat
        with (S (Z.to_nat max_songs - (length results + 1)))%nat by lia.
      reflexivity.
Qed.

Lemma parse_search_results_take soup max_songs :
  parse_search_results soup max_songs
  = firstn (Z.to_nat max_songs) (all_candidates soup).
Proof.
  unfold parse_search_results, parse_anchors, all_candidates.
  cbv zeta. rewrite (collect_entries mini_card_entry). simpl.
  rewrite Nat.sub_0_r.
  destruct (entries mini_card_entry (select_a_mini_card soup)) as [|c cs].
  - rewrite firstn_nil. rewrite collect_entries. simpl.
    now rewrite Nat.sub_0_r.
  - destruct (Z.to_nat max_songs) as [|n] eqn:E; simpl; [|reflexivity].
    rewrite collect_entries, E. reflexivity.
Qed.

(** The result is made of the first [max_songs] candidates of the page,
    in the order of the page: those the mini cards give when they give
    any, whatever other anchors the page has, and those all the anchors
    give when the mini cards give none. *)
Theorem candidates_in_page_order soup max_songs :
  let cards := entries mini_card_entry (select_a_mini_card soup) in
  let links := entries anchor_entry (find_all_a_href soup) in
  (cards <> [] ->
   parse_search_results soup max_songs = firstn (Z.to_nat max_songs) cards)
  /\ (cards = [] ->
      parse_search_results soup max_songs = firstn (Z.to_nat max_songs) links).
Proof.
  intros cards links. rewrite parse_search_results_take.
  unfold all_candidates. fold cards links. split.
  - intros H. destruct cards; [congruence | reflexivity].
  - now intros ->.
Qed.

Lemma candidates_in_page_order_witness :
  parse_search_results page_mini_cards 1
  = firstn 1 (entries mini_card_entry (select_a_mini_card page_mini_cards))
  /\ parse_search_results page_two_links 1
     = firstn 1 (entries anchor_entry (find_all_a_href page_two_links)).
Proof.
  split.
  - apply (proj1 (candidates_in_page_order page_mini_cards 1)).
    vm_compute. discriminate.
  - apply (proj2 (candidates_in_page_order page_two_links 1)). reflexivity.
Defined.

(** Asking for fewer candidates gives a prefix of what asking for more
    gives: a larger [max_songs] only adds candidates at the end. *)
Theorem parse_search_results_prefix soup small large :
  (small <= large)%Z ->
  parse_search_results soup small
  = firstn (Z.to_nat small) (parse_search_results soup large).
Proof.
  intros H. rewrite !parse_search_results_take, firstn_firstn.
  f_equal. lia.
Qed.

Lemma parse_search_results_prefix_witness :
  parse_search_results page_two_links 1
  = firstn 1 (parse_search_results page_two_links 2).
Proof.
  apply (parse_search_results_prefix page_two_links 1 2). lia.
Defined.

Lemma entries_filter body (keep : node -> bool) anchors :
  (forall a, keep a = false -> body a = None) ->
  entries body (filter keep anchors) = entries body anchors.
Proof.
  intros Hkeep. induction anchors as [|a rest IH]; simpl; [reflexivity|].
  destruct (keep a) eqn:K; simpl; rewrite IH; [reflexivity|].
  now rewrite (Hkeep _ K).
Qed.

Lemma filter_none {A} (f : A -> bool) l :
  (forall x, In x l -> f x = false) -> filter f l = [].
Proof.
  induction l as [|x l IH]; intros H; simpl; [reflexivity|].
  rewrite (H x (or_introl eq_refl)). apply IH. intros y Hy. apply H. now right.
Qed.

(** A page none of whose anchors has an [href] the lyric-page pattern
    accepts gives no candidate, in either layout. *)
Theorem no_lyric_link_no_candidate soup max_songs :
  (forall a, In a (descendants soup) -> lyric_link a = false) ->
  parse_search_results soup max_songs = [].
Proof.
  intros H. rewrite parse_search_results_take. unfold all_candidates.
  rewrite <- (entries_filter mini_card_entry lyric_link _ mini_card_entry_skips).
  rewrite <- (entries_filter anchor_entry lyric_link _ anchor_entry_skips).
  rewrite !filter_none.
  - apply firstn_nil.
  - intros a Ha. apply H. unfold find_all_a_href in Ha.
    now apply filter_In in Ha.
  - intros a Ha. apply H. unfold select_a_mini_card in Ha.
    now apply filter_In in Ha.
Qed.

Lemma no_lyric_link_no_candidate_witness :
  parse_search_results
    (document [a_href (str "https://genius.com/artists/Queen")
                      [NavigableString (str "Queen")]]) 5 = [].
Proof.
  apply no_lyric_link_no_candidate.
  intros a [<-|[<-|[]]]; reflexivity.
Defined.

Lemma lstrip_nonspace_head s : nonspace_head s -> lstrip s = s.
Proof. intros (c & r & -> & Hc). simpl. now rewrite Hc. Qed.

Lemma rstrip_nonspace_last s : nonspace_last s -> rstrip s = s.
Proof.
  intros (r & c & -> & Hc). unfold rstrip.
  rewrite rev_app_distr. simpl. rewrite Hc.
  change (c :: rev r) with ([c] ++ rev r).
  now rewrite rev_app_distr, rev_involutive.
Qed.

Lemma rev_nonspace_head s : nonspace_head s -> nonspace_last (rev s).
Proof. intros (c & r & -> & Hc). simpl. now exists (rev r), c. Qed.

Lemma rstrip_last s : rstrip s = [] \/ nonspace_last (rstrip s).
Proof.
  unfold rstrip. destruct (lstrip_head (rev s)) as [->|H].
  - now left.
  - right. now apply rev_nonspace_head.
Qed.

(** [strip()] leaves nothing to strip. *)
Lemma strip_is_trimmed s : trimmed (strip s).
Proof.
  destruct (strip_head s) as [E|Hh]; [now left|]. right. split; [exact Hh|].
  unfold strip in *. destruct (rstrip_last (lstrip s)) as [E|Hl]; [|exact Hl].
  rewrite E in Hh. now apply nonspace_head_not_nil in Hh.
Qed.

Lemma strip_trimmed s : trimmed s -> strip s = s.
Proof.
  intros [->|[Hh Hl]]; [reflexivity|]. unfold strip.
  rewrite (lstrip_nonspace_head s Hh). now apply rstrip_nonspace_last.
Qed.

Lemma strip_idempotent s : strip (strip s) = strip s.
Proof. apply strip_trimmed, strip_is_trimmed. Qed.

Lemma stripped_strings_trimmed n :
  Forall (fun p => nonspace_head p /\ nonspace_last p) (stripped_strings n).
Proof.
  apply Forall_forall. intros p Hp. unfold stripped_strings in Hp.
  apply filter_In in Hp as [Hp Ht]. apply in_flat_map in Hp as (d & _ & Hd).
  destruct d as [? ? ? ?|s|s]; simpl in Hd; try contradiction.
  destruct Hd as [<-|[]].
  destruct (strip_is_trimmed s) as [E|H]; [|exact H].
  rewrite E in Ht. discriminate.
Qed.

Lemma join_last sep ps :
  ps <> [] -> Forall nonspace_last ps -> nonspace_last (join sep ps).
Proof.
  induction ps as [|p ps IH]; intros Hne H; [congruence|].
  inversion H as [|? ? Hp Hps]; subst. destruct ps as [|q ps].
  - exact Hp.
  - destruct IH as (r & c & E & Hc); [discriminate | exact Hps |].
    exists (p ++ sep ++ r), c. split; [|exact Hc].
    change (join sep (p :: q :: ps)) with (p ++ sep ++ join sep (q :: ps)).
    now rewrite E, !app_assoc.
Qed.

(** The text [get_text(sep, strip=True)] returns needs no [strip()]. *)
Lemma get_text_trimmed sep n : trimmed (get_text sep n).
Proof.
  unfold get_text. pose proof (stripped_strings_trimmed n) as H.
  destruct (stripped_strings n) as [|p ps] eqn:E; [now left|]. right. split.
  - apply join_head. inversion H as [|? ? [Hp _] _]. exact Hp.
  - apply join_last; [discriminate|].
    eapply Forall_impl; [|exact H]. now intros a [_ Ha].
Qed.

Lemma mini_card_entry_trimmed a c :
  mini_card_entry a = Some c ->
  trimmed (song_title c) /\ trimmed (artist_name c).
Proof.
  unfold mini_card_entry.
  destruct (re_match LYRICS_URL_RE _); [|discriminate]. simpl.
  destruct (mini_card_title_artist a) as [t ar].
  destruct (truthy t); [|discriminate]. intros [= <-]. simpl.
  split; apply strip_is_trimmed.
Qed.

Lemma anchor_entry_trimmed a c :
  anchor_entry a = Some c ->
  trimmed (song_title c) /\ trimmed (artist_name c).
Proof.
  unfold anchor_entry.
  destruct (re_match LYRICS_URL_RE _); [|discriminate]. simpl.
  destruct (truthy (get_text (str " ") a)); [|discriminate]. simpl.
  destruct (if contains SEP_EN_DASH _ then _ else _) as [t ar].
  intros [= <-]. simpl. split; apply strip_is_trimmed.
Qed.

(** The title and the artist of every candidate returned come without
    white space at either end: each is empty or starts and ends with a
    character that is not white space. *)
Theorem candidates_are_trimmed soup max_songs c :
  In c (parse_search_results soup max_songs) ->
  trimmed (song_title c) /\ trimmed (artist_name c).
Proof.
  revert c. apply Forall_forall, parse_search_results_Forall.
  - exact mini_card_entry_trimmed.
  - exact anchor_entry_trimmed.
Qed.

Lemma candidates_are_trimmed_witness :
  trimmed (str "Killer Queen") /\ trimmed (str "Queen").
Proof.
  apply (candidates_are_trimmed page_two_links 2 killer_queen).
  vm_compute. right. left. reflexivity.
Defined.

(** In the second layout an accepted anchor with text gives a candidate
    whose title and artist are the two sides of the leftmost [" – "], or
    else of the leftmost [" - "], each stripped; with neither separator
    the title is the whole text and the artist is empty. *)
Theorem anchor_entry_split a :
  let href := match attr (str "href") a with Some h => h | None => [] end in
  let text := get_text (str " ") a in
  lyric_link a = true ->
  text <> [] ->
  (forall t r, first_split SEP_EN_DASH text t r ->
               anchor_entry a
               = Some {| url := href; song_title := strip t;
                         artist_name := strip r |})
  /\ ((forall t r, text <> t ++ SEP_EN_DASH ++ r) ->
      (forall t r, first_split SEP_HYPHEN text t r ->
                   anchor_entry a
                   = Some {| url := href; song_title := strip t;
                             artist_name := strip r |})
      /\ ((forall t r, text <> t ++ SEP_HYPHEN ++ r) ->
          anchor_entry a
          = Some {| url := href; song_title := text; artist_name := [] |})).
Proof.
  intros href text Hlink Htext. unfold anchor_entry.
  fold href text. unfold lyric_link in Hlink. fold href in Hlink.
  rewrite Hlink. cbn [negb].
  assert (Ht : truthy text = true) by now destruct text.
  rewrite Ht. cbn [negb]. split; [|intros Hno; split].
  - intros t r H. rewrite (first_split_contains _ _ _ _ H).
    now rewrite (unpack2_split1 _ _ _ _ H).
  - intros t r H. apply contains_false in Hno. rewrite Hno.
    rewrite (first_split_contains _ _ _ _ H).
    now rewrite (unpack2_split1 _ _ _ _ H).
  - intros Hno2. apply contains_false in Hno, Hno2. rewrite Hno, Hno2.
    rewrite (strip_trimmed text (get_text_trimmed (str " ") a)).
    reflexivity.
Qed.

Lemma anchor_entry_split_witness :
  anchor_entry link_en_dash
  = Some {| url := str "https://genius.com/Queen-bohemian-rhapsody-lyrics";
            song_title := str "Bohemian Rhapsody - Live";
            artist_name := str "Queen" |}
  /\ anchor_entry link_hyphen
     = Some {| url := str "https://genius.com/Queen-killer-queen-lyrics";
               song_title := str "Killer Queen";
               artist_name := str "Queen - 1974" |}
  /\ anchor_entry link_plain
     = Some {| url := str "https://genius.com/Queen-bicycle-race-lyrics";
               song_title := str "Bicycle Race";
               artist_name := [] |}.
Proof.
  split; [|split].
  - apply (proj1 (anchor_entry_split link_en_dash eq_refl
                    ltac:(discriminate))
                 (str "Bohemian Rhapsody - Live") (str "Queen")).
    exact (find_first_split SEP_EN_DASH (get_text (str " ") link_en_dash)
                            24 eq_refl).
  - apply (proj1 (proj2 (anchor_entry_split link_hyphen eq_refl
                           ltac:(discriminate))
                        (proj1 (contains_false SEP_EN_DASH
                                  (get_text (str " ") link_hyphen)) eq_refl))
                 (str "Killer Queen") (str "Queen - 1974")).
    exact (find_first_split SEP_HYPHEN (get_text (str " ") link_hyphen)
                            12 eq_refl).
  - apply (proj2 (proj2 (anchor_entry_split link_plain eq_refl
                           ltac:(discriminate))
                        (proj1 (contains_false SEP_EN_DASH
                                  (get_text (str " ") link_plain)) eq_refl))).
    exact (proj1 (contains_false SEP_HYPHEN
                    (get_text (str " ") link_plain)) eq_refl).
Defined.

(* ================================================================== *)
(** * Further properties of the Lyrics Extractor *)
(* ================================================================== *)

Lemma truthy_trimmed s :
  trimmed s -> truthy s = true -> nonspace_head s /\ nonspace_last s.
Proof. intros [->|H] Ht; [discriminate | exact H]. Qed.

Lemma join_trimmed sep ps :
  ps <> [] ->
  Forall (fun p => nonspace_head p /\ nonspace_last p) ps ->
  nonspace_head (join sep ps) /\ nonspace_last (join sep ps).
Proof.
  intros Hne H. split.
  - destruct ps as [|p ps]; [congruence|].
    apply join_head. inversion H as [|? ? [Hp _] _]. exact Hp.
  - apply join_last; [exact Hne|].
    eapply Forall_impl; [|exact H]. now intros a [_ Ha].
Qed.

(** The lyrics are the texts of the containers of the newer layout that
    are not empty, joined by a blank line; when there is none, the text of
    the first element of class [lyrics], and the empty string when there
    is none either.  The final [strip()] changes nothing. *)
Theorem parse_lyrics_blocks soup :
  let blocks :=
    filter truthy (map (get_text [LF]) (select_lyrics_containers soup)) in
  (blocks <> [] -> parse_lyrics soup = join [LF; LF] blocks)
  /\ (blocks = [] ->
      parse_lyrics soup
      = match select_one_class (str "lyrics") soup with
        | Some old => get_text [LF] old
        | None => []
        end).
Proof.
  intros blocks. unfold parse_lyrics. fold blocks. split.
  - intros Hne.
    assert (H : nonspace_head (join [LF; LF] blocks)
                /\ nonspace_last (join [LF; LF] blocks)).
    { apply join_trimmed; [exact Hne|]. apply Forall_forall. intros p Hp.
      unfold blocks in Hp. apply filter_In in Hp as [Hp Ht].
      apply in_map_iff in Hp as (n & <- & _).
      now apply truthy_trimmed; [apply get_text_trimmed|]. }
    assert (Ht : truthy (join [LF; LF] blocks) = true).
    { destruct H as [(c & r & -> & _) _]. reflexivity. }
    rewrite Ht. cbn [negb]. apply strip_trimmed. now right.
  - intros ->. cbn [join truthy negb].
    destruct (select_one_class (str "lyrics") soup) as [old|];
      [|reflexivity].
    apply strip_trimmed, get_text_trimmed.
Qed.

Lemma parse_lyrics_blocks_witness :
  parse_lyrics lyrics_page = str "Line1" ++ [LF; LF] ++ str "Line2"
  /\ parse_lyrics legacy_lyrics_page = str "Line1" ++ [LF] ++ str "Line2"
  /\ parse_lyrics (document []) = [].
Proof.
  split; [|split].
  - apply (proj1 (parse_lyrics_blocks lyrics_page)). discriminate.
  - apply (proj2 (parse_lyrics_blocks legacy_lyrics_page)). reflexivity.
  - apply (proj2 (parse_lyrics_blocks (document []))). reflexivity.
Defined.

(* ================================================================== *)
(** * Further properties of the scrape run *)
(* ================================================================== *)

Section Loop.

Variable env : services.
Variable search_query : pystr.
Variable proxy_url : option pystr.

Let body := song_page env search_query proxy_url.

(** One turn of the loop pushes a record of its candidate, or ends in the
    exception its request ends in, which is no [HTTPError]. *)
Lemma song_page_cases c w :
  (exists r,
      record_of search_query c r
      /\ body c w = (Returned tt, pushed r (sent w)))
  \/ (exists e,
         (forall status, e <> HTTPError status)
         /\ raised_by (requests_get env (requests_sent w) (url c)
                                    (proxies_for proxy_url)) = Some e
         /\ body c w = (Raised e, sent w)).
Proof.
  unfold body. rewrite song_page_run.
  destruct (requests_get env _ (url c) _) as [status text| | |e].
  - left. destruct (is_error_status status); eexists;
      (split; [|reflexivity]); now repeat split.
  - right. exists Timeout. now repeat split.
  - right. exists ConnectionError. now repeat split.
  - destruct e;
      try (right; eexists; split; [|split; reflexivity]; discriminate).
    left. eexists. split; [|reflexivity]. now repeat split.
Qed.


(** What the loop adds to the state: at most one request per candidate,
    and no record without a request. *)
Lemma for_each_counts cs :
  forall w,
    let w' := snd (for_each cs body w) in
    (requests_sent w <= requests_sent w' <= requests_sent w + length cs)%nat
    /\ (length (dataset w) <= length (dataset w'))%nat
    /\ (length (dataset w') - length (dataset w)
        <= requests_sent w' - requests_sent w)%nat.
Proof.
  induction cs as [|c cs IH]; intros w; cbv zeta.
  { cbn [for_each ret snd length]. lia. }
  cbn [for_each]. unfold bind.
  destruct (song_page_cases c w) as [(r & _ & ->)|(e0 & _ & _ & ->)].
  - specialize (IH (pushed r (sent w))). cbv zeta in IH.
    cbn [pushed sent requests_sent dataset] in IH.
    rewrite length_app in IH. cbn [length] in *. lia.
  - cbn [snd sent requests_sent dataset length]. lia.
Qed.

(** The records the loop pushes are those of the candidates, in their
    order, up to the first request that ends in an exception other than
    an [HTTPError]. *)
Lemma for_each_records cs :
  forall w,
    exists rs,
      dataset (snd (for_each cs body w)) = dataset w ++ rs
      /\ Forall2 (record_of search_query) (firstn (length rs) cs) rs
      /\ (fst (for_each cs body w) = Returned tt -> length rs = length cs).
Proof.
  induction cs as [|c cs IH]; intros w; simpl.
  - exists []. unfold ret. simpl. rewrite app_nil_r. repeat split.
    constructor.
  - unfold bind.
    destruct (song_page_cases c w) as [(r & Hr & ->)|(e0 & _ & _ & ->)].
    + destruct (IH (pushed r (sent w))) as (rs & Hrs & Hall & Hlen).
      exists (r :: rs). simpl in Hrs. rewrite Hrs, <- app_assoc.
      split; [reflexivity|]. split.
      * simpl. constructor; [exact Hr | exact Hall].
      * intros Hret. simpl. f_equal. now apply Hlen.
    + exists []. rewrite app_nil_r. repeat split; [constructor | discriminate].
Qed.

End Loop.

(** Reduce the state of a run, and nothing else. *)
Ltac run_state :=
  cbn [snd fst negb raise pushed sent start requests_sent dataset length app].

Tactic Notation "run_state" "in" hyp(H) :=
  cbn [snd fst negb raise pushed sent start requests_sent dataset length app]
    in H.



(** The run sends the request for the search page and at most one request
    per candidate wanted, never more than [1 + max_songs] in all (one when
    [max_songs] is negative); it pushes at most [max_songs] records (one
    when [max_songs] is below one), and never more records than it has
    sent requests. *)
Theorem run_is_bounded env actor_input :
  let w := snd (main env actor_input start) in
  (requests_sent w <= 1 + Z.to_nat (max_songs_of actor_input))%nat
  /\ (length (dataset w) <= Nat.max 1 (Z.to_nat (max_songs_of actor_input)))%nat
  /\ (length (dataset w) <= requests_sent w)%nat.
Proof.
  cbv zeta.
  destruct (Input.searchQuery actor_input) as [search_query|] eqn:Hq.
  2: { unfold main. rewrite Hq. run_state. lia. }
  destruct (truthy search_query) eqn:Ht.
  2: { unfold main. rewrite Hq, Ht. run_state. lia. }
  rewrite (main_run env actor_input search_query Hq Ht).
  destruct (requests_get env 0 _ _) as [status html| | |e];
    [|run_state; lia|run_state; lia|destruct e; run_state; lia].
  destruct (is_error_status status); [run_state; lia|].
  pose proof (parse_search_results_bound (BeautifulSoup env html)
                                         (max_songs_of actor_input)) as Hlen.
  destruct (parse_search_results _ _) as [|c cs]; [run_state; lia|].
  pose proof (for_each_counts env search_query (proxy_url_of env)
                (c :: cs) (sent start)) as Hc.
  cbv zeta in Hc. run_state in Hc. cbn [length] in *. lia.
Qed.

(** Once the search page is served and has candidates, the records pushed
    are those of the candidates, in the order of the extractor, each under
    the search query of the run: one per candidate when the run returns,
    and those of the first candidates when a request ends in an exception
    that is not caught. *)
Theorem records_follow_candidates
        env actor_input search_query status search_html :
  Input.searchQuery actor_input = Some search_query ->
  truthy search_query = true ->
  requests_get env 0 (search_url_of env search_query)
               (proxies_for (proxy_url_of env))
  = Response status search_html ->
  is_error_status status = false ->
  let candidates :=
    parse_search_results (BeautifulSoup env search_html)
                         (max_songs_of actor_input) in
  let w := snd (main env actor_input start) in
  candidates <> [] ->
  Forall2 (record_of search_query)
          (firstn (length (dataset w)) candidates) (dataset w)
  /\ (fst (main env actor_input start) = Returned tt ->
      length (dataset w) = length candidates).
Proof.
  intros Hq Ht Hreply Hstatus candidates w Hne. subst w.
  rewrite (main_run env actor_input search_query Hq Ht), Hreply, Hstatus.
  fold candidates.
  destruct (for_each_records env search_query (proxy_url_of env)
              candidates (sent start)) as (rs & Hrs & Hall & Hlen).
  destruct candidates as [|c cs] eqn:E; [congruence|].
  rewrite Hrs. split; [exact Hall | exact Hlen].
Qed.

Lemma records_follow_candidates_witness :
  let w := snd (main (sample_services first_song_missing)
                     (sample_input 2) start) in
  Forall2 (record_of (str "Bohemian Rhapsody"))
          (firstn (length (dataset w))
                  (parse_search_results page_two_links 2))
          (dataset w)
  /\ (fst (main (sample_services first_song_missing) (sample_input 2) start)
      = Returned tt ->
      length (dataset w) = length (parse_search_results page_two_links 2)).
Proof.
  apply (records_follow_candidates (sample_services first_song_missing)
           (sample_input 2) (str "Bohemian Rhapsody") 200 search_markup);
    try reflexivity.
  vm_compute. discriminate.
Defined.

(** A proxy that cannot be acquired, or whose URL is empty, leaves the run
    as it is without a proxy. *)
Theorem proxy_failure_is_no_proxy env actor_input :
  new_proxy_url env = ProxyFailed
  \/ new_proxy_url env = ProxyUrl (Some []) ->
  main env actor_input start = main (without_proxy env) actor_input start.
Proof.
  intros H. destruct env as [qp bs rg np]. simpl in H.
  destruct H as [->| ->]; reflexivity.
Qed.

Lemma proxy_failure_is_no_proxy_witness :
  main (sample_services first_song_missing) (sample_input 2) start
  = main (without_proxy (sample_services first_song_missing))
         (sample_input 2) start.
Proof.
  apply (proxy_failure_is_no_proxy (sample_services first_song_missing)).
  left. reflexivity.
Defined.



(* ================================================================== *)
(** * Further properties of the first-album lookup *)
(* ================================================================== *)

Lemma find_char c pre rest :
  ~ In c pre -> find [c] (pre ++ c :: rest) = Some (length pre).
Proof.
  intros H. induction pre as [|x pre IH]; simpl.
  - now rewrite N.eqb_refl.
  - destruct (N.eqb_spec c x) as [->|Hx]; [exfalso; apply H; now left|].
    simpl. rewrite IH; [reflexivity|]. intros Hin. apply H. now right.
Qed.

Lemma find_char_absent c s : ~ In c s -> find [c] s = None.
Proof.
  intros H. induction s as [|x s IH]; simpl; [reflexivity|].
  destruct (N.eqb_spec c x) as [->|Hx]; [exfalso; apply H; now left|].
  simpl. rewrite IH; [reflexivity|]. intros Hin. apply H. now right.
Qed.

Lemma rfind_char_absent c s : ~ In c s -> rfind [c] s = None.
Proof.
  intros H. induction s as [|x s IH]; simpl; [reflexivity|].
  rewrite IH by (intros Hin; apply H; now right).
  destruct (N.eqb_spec c x) as [->|Hx]; [exfalso; apply H; now left|].
  reflexivity.
Qed.

Lemma rfind_char c pre post :
  ~ In c post -> rfind [c] (pre ++ c :: post) = Some (length pre).
Proof.
  intros H. induction pre as [|x pre IH]; simpl.
  - rewrite (rfind_char_absent c post H). now rewrite N.eqb_refl.
  - now rewrite IH.
Qed.

Lemma slice_middle pre mid post :
  slice (pre ++ mid ++ post) (length pre) (length pre + length mid) = mid.
Proof.
  unfold slice. rewrite skipn_length_app.
  replace (length pre + length mid - length pre)%nat with (length mid) by lia.
  apply firstn_length_app.
Qed.

(** The text the language model answered with, once the endpoint's reply
    is an object with a string under ["response"]. *)
Lemma call_ollama_json_text env prompt status body items raw :
  Agent.requests_post env prompt = Response status body ->
  is_error_status status = false ->
  Agent.json_loads env body = Some (Agent.JDict items) ->
  Agent.dict_get (str "response") items = Some (Agent.JString raw) ->
  Agent.call_ollama_json env prompt
  = let text := strip raw in
    let text :=
      match find (str "{") text, rfind (str "}") text with
      | Some i, Some j => slice text i (j + 1)
      | _, _ => text
      end in
    match Agent.json_loads env text with
    | Some v => Returned v
    | None => Raised (RuntimeError (str "Failed to parse Ollama JSON: "))
    end.
Proof.
  intros Hpost Hstatus Hbody Hresp. unfold Agent.call_ollama_json.
  rewrite Hpost, Hstatus, Hbody. simpl. now rewrite Hresp.
Qed.

(** The object is cut out of the model's answer from its first ["{"] to
    its last ["}"], whatever prose surrounds it, and decoded; an answer
    without both braces is decoded whole, and one whose last ["}"] comes
    before its first ["{"] is decoded as the empty text.  A text that does
    not decode gives a [RuntimeError]. *)
Theorem call_ollama_json_extracts env prompt status body items raw :
  Agent.requests_post env prompt = Response status body ->
  is_error_status status = false ->
  Agent.json_loads env body = Some (Agent.JDict items) ->
  Agent.dict_get (str "response") items = Some (Agent.JString raw) ->
  let decoded text :=
    match Agent.json_loads env text with
    | Some v => Returned v
    | None => Raised (RuntimeError (str "Failed to parse Ollama JSON: "))
    end in
  (forall pre inner post,
      strip raw = pre ++ str "{" ++ inner ++ str "}" ++ post ->
      ~ In 123%N pre -> ~ In 125%N post ->
      Agent.call_ollama_json env prompt
      = decoded (str "{" ++ inner ++ str "}"))
  /\ (~ In 123%N (strip raw) \/ ~ In 125%N (strip raw) ->
      Agent.call_ollama_json env prompt = decoded (strip raw))
  /\ (forall a b c,
         strip raw = a ++ str "}" ++ b ++ str "{" ++ c ->
         ~ In 123%N a -> ~ In 123%N b -> ~ In 125%N b -> ~ In 125%N c ->
         Agent.call_ollama_json env prompt = decoded []).
Proof.
  intros Hpost Hstatus Hbody Hresp decoded.
  rewrite (call_ollama_json_text env prompt status body items raw
             Hpost Hstatus Hbody Hresp).
  cbv zeta. change (str "{") with [123%N]. change (str "}") with [125%N].
  split; [|split].
  - intros pre inner post E Hpre Hpost'. rewrite E.
    change (pre ++ [123%N] ++ inner ++ [125%N] ++ post)
      with (pre ++ 123%N :: (inner ++ [125%N] ++ post)) at 1.
    rewrite (find_char 123 pre _ Hpre).
    replace (pre ++ [123%N] ++ inner ++ [125%N] ++ post)
      with ((pre ++ [123%N] ++ inner) ++ 125%N :: post) at 1
      by now rewrite <- !app_assoc.
    rewrite (rfind_char 125 (pre ++ [123%N] ++ inner) post Hpost').
    replace (pre ++ [123%N] ++ inner ++ [125%N] ++ post)
      with (pre ++ ([123%N] ++ inner ++ [125%N]) ++ post)
      by now rewrite <- !app_assoc.
    replace (length (pre ++ [123%N] ++ inner) + 1)%nat
      with (length pre + length ([123%N] ++ inner ++ [125%N]))%nat
      by (rewrite !length_app; simpl; lia).
    now rewrite slice_middle.
  - intros [H|H].
    + now rewrite (find_char_absent 123 _ H).
    + rewrite (rfind_char_absent 125 _ H). now destruct (find _ _).
  - intros a b c E Ha Hb Hb' Hc. rewrite E.
    replace (a ++ [125%N] ++ b ++ [123%N] ++ c)
      with ((a ++ [125%N] ++ b) ++ 123%N :: c) at 1
      by now rewrite <- !app_assoc.
    rewrite find_char.
    2: { intros Hin. apply in_app_or in Hin as [Hin|Hin]; [now apply Ha|].
         apply in_app_or in Hin as [[Hin|[]]|Hin];
           [discriminate Hin | now apply Hb]. }
    change (a ++ [125%N] ++ b ++ [123%N] ++ c)
      with (a ++ 125%N :: (b ++ [123%N] ++ c)) at 1.
    rewrite rfind_char.
    2: { intros Hin. apply in_app_or in Hin as [Hin|Hin]; [now apply Hb'|].
         apply in_app_or in Hin as [[Hin|[]]|Hin];
           [discriminate Hin | now apply Hc]. }
    unfold slice.
    replace (length a + 1 - length (a ++ [125%N] ++ b))%nat with 0%nat
      by (rewrite !length_app; simpl; lia).
    reflexivity.
Qed.

Lemma call_ollama_json_extracts_witness :
  Agent.call_ollama_json (sample_llm (str "tracks")) (str "Any prompt")
  = Returned (Agent.JDict [(str "tracks", Agent.JList [])]).
Proof.
  apply (proj1 (call_ollama_json_extracts
                  (sample_llm (str "tracks")) (str "Any prompt")
                  200 (generate_body (str "tracks"))
                  [(str "response",
                    Agent.JString (str "Sure! " ++ album_text (str "tracks")
                                   ++ str " Enjoy."))]
                  (str "Sure! " ++ album_text (str "tracks") ++ str " Enjoy.")
                  eq_refl eq_refl eq_refl eq_refl)
               (str "Sure! ") (quoted (str "tracks") ++ str ": []")
               (str " Enjoy.")).
  - reflexivity.
  - vm_compute. intuition discriminate.
  - vm_compute. intuition discriminate.
Defined.

(** A lookup that returns has an object with a list under ["tracks"],
    the very value [call_ollama_json] returned; whatever that call raises,
    the lookup raises. *)
Theorem first_album_is_checked env artist_name :
  (forall data,
      Agent.get_first_album_from_llm env artist_name = Returned data ->
      Agent.call_ollama_json env (Agent.first_album_prompt env artist_name)
      = Returned data
      /\ exists items tracks,
          data = Agent.JDict items
          /\ Agent.dict_get (str "tracks") items = Some (Agent.JList tracks))
  /\ (forall e,
         Agent.call_ollama_json env (Agent.first_album_prompt env artist_name)
         = Raised e ->
         Agent.get_first_album_from_llm env artist_name = Raised e).
Proof.
  unfold Agent.get_first_album_from_llm. split.
  - intros data.
    destruct (Agent.call_ollama_json env _) as [v|e]; simpl; [|discriminate].
    destruct v as [|b|n|s|l|items]; simpl; try discriminate.
    + match goal with |- context [if ?b then _ else _] => destruct b end;
        discriminate.
    + match goal with |- context [if ?b then _ else _] => destruct b end;
        discriminate.
    + destruct (Agent.dict_get (str "tracks") items) as [t|] eqn:Ht; simpl;
        [|discriminate].
      destruct t as [|b|n|s|tracks|d]; simpl; try discriminate.
      intros [= <-]. split; [reflexivity|]. now exists items, tracks.
  - intros e ->. reflexivity.
Qed.

Lemma first_album_is_checked_witness :
  Agent.call_ollama_json (sample_llm (str "tracks"))
                         (Agent.first_album_prompt (sample_llm (str "tracks"))
                                                   (str "Queen"))
  = Returned (Agent.JDict [(str "tracks", Agent.JList [])])
  /\ exists items tracks,
      Agent.JDict [(str "tracks", Agent.JList [])] = Agent.JDict items
      /\ Agent.dict_get (str "tracks") items = Some (Agent.JList tracks).
Proof.
  apply (proj1 (first_album_is_checked (sample_llm (str "tracks"))
                                       (str "Queen"))).
  reflexivity.
Defined.

(* ================================================================== *)
(** * Properties of the pipeline *)
(* ================================================================== *)

Section PipelineFacts.

Import Agent.
Import Pipeline.

Variable env : Pipeline.services.

(** [call_apify_actor] sends one request, whatever comes back. *)
Lemma call_apify_actor_one_request actor_id payload n :
  snd (call_apify_actor env actor_id payload n) = S n.
Proof.
  unfold call_apify_actor.
  destruct (requests_post env n actor_id payload) as [status body| | |e];
    try reflexivity.
  destruct (is_error_status status); [reflexivity|].
  now destruct (json_loads (llm env) body).
Qed.

(** What [call_apify_actor] raises is an exception of the request, of
    its status or of the decoding of its body, never one of a
    subscript. *)
Lemma call_apify_actor_raises actor_id payload n e n' :
  call_apify_actor env actor_id payload n = (Err e, n') ->
  exists x, e = Exn x.
Proof.
  unfold call_apify_actor.
  destruct (requests_post env n actor_id payload) as [status body| | |e0].
  - destruct (is_error_status status).
    + intros [= <- _]. eexists. reflexivity.
    + destruct (json_loads (llm env) body); [discriminate|].
      intros [= <- _]. eexists. reflexivity.
  - intros [= <- _]. eexists. reflexivity.
  - intros [= <- _]. eexists. reflexivity.
  - intros [= <- _]. eexists. reflexivity.
Qed.

Lemma py_or_empty_string v :
  py_or env v (JString []) = JString [] \/ py_bool env (py_or env v (JString [])) = true.
Proof.
  unfold py_or. destruct (py_bool env v) eqn:E; [now right | now left].
Qed.

(** What a lyrics lookup comes to, by the outcome of its call to
    Apify. *)
Lemma fetch_lyrics_from_genius_run title artist n :
  fetch_lyrics_from_genius env title artist n
  = match call_apify_actor env (GENIUS_ACTOR_ID env)
            (genius_payload (title ++ str " " ++ artist ++ str " lyrics")) n with
    | (Err e, n') => (Ok (failed_lookup env title e), n')
    | (Ok items, n') =>
        if py_bool env items then
          match subscript0 items with
          | Err e => (Err e, n')
          | Ok item =>
              match item with
              | JDict d =>
                  (Ok {| song_title := title;
                         genius_url := field (str "url") d;
                         lyrics_raw :=
                           py_or env (field (str "lyricsText") d) (JString []);
                         error := field (str "error") d |}, n')
              | _ => (Err (Exn AttributeError), n')
              end
          end
        else
          (Ok {| song_title := title;
                 genius_url := JNull;
                 lyrics_raw := JString [];
                 error :=
                   JString (str "No items returned from genius-free-lyrics actor") |},
           n')
    end.
Proof.
  unfold fetch_lyrics_from_genius.
  destruct (call_apify_actor env _ _ n) as [[items|e] n']; [|reflexivity].
  destruct (py_bool env items); [|reflexivity]. cbn [negb].
  unfold Pipeline.bind, lift.
  destruct (subscript0 items) as [item|e]; [|reflexivity].
  destruct item; reflexivity.
Qed.

End PipelineFacts.

Section PipelineProperties.

Import Agent.
Import Pipeline.

Variable env : Pipeline.services.

(** A lyrics lookup whose request ends in an exception (a timeout, a
    network failure or any other), an error status or a body that does not
    decode raises nothing: it returns, after that one request, a record
    for the song with empty lyrics, a null URL and the failure explained
    in [error]. *)
Theorem lyrics_lookup_degrades title artist n :
  let r := requests_post env n (GENIUS_ACTOR_ID env)
             (genius_payload (title ++ str " " ++ artist ++ str " lyrics")) in
  (r = TimedOut \/ r = Unreachable \/ (exists e, r = Raises e)
   \/ exists status body,
       r = Response status body
       /\ (is_error_status status = true
           \/ json_loads (llm env) body = None)) ->
  exists e,
    fetch_lyrics_from_genius env title artist n
    = (Ok {| song_title := title;
             genius_url := JNull;
             lyrics_raw := JString [];
             error := JString (str "Apify call failed: "
                               ++ str_of_failure env e) |},
       S n).
Proof.
  intros r H. rewrite fetch_lyrics_from_genius_run. unfold call_apify_actor.
  fold r. destruct H as [->|[->|[(e & ->)|(status & body & -> & H)]]].
  - now exists (Exn Timeout).
  - now exists (Exn ConnectionError).
  - now exists (Exn e).
  - destruct (is_error_status status) eqn:E.
    + now exists (Exn (HTTPError (Some status))).
    + destruct H as [H|H]; [discriminate|]. rewrite H.
      now exists (Exn JSONDecodeError).
Qed.

(** A lyrics lookup sends exactly one request.  When it returns, its
    record is under the title asked for and its [lyrics_raw] is the empty
    string or a true value, never null; when it raises, it is over the
    shape of the items (a [KeyError], a [TypeError] or an
    [AttributeError]), never over the request. *)
Theorem lyrics_lookup_shape title artist n :
  snd (fetch_lyrics_from_genius env title artist n) = S n
  /\ (forall t n',
         fetch_lyrics_from_genius env title artist n = (Ok t, n') ->
         song_title t = title
         /\ (lyrics_raw t = JString []
             \/ py_bool env (lyrics_raw t) = true))
  /\ (forall e n',
         fetch_lyrics_from_genius env title artist n = (Err e, n') ->
         e = KeyError \/ e = Exn TypeError \/ e = Exn AttributeError).
Proof.
  rewrite fetch_lyrics_from_genius_run.
  pose proof (call_apify_actor_one_request env (GENIUS_ACTOR_ID env)
                (genius_payload (title ++ str " " ++ artist ++ str " lyrics"))
                n) as Hn.
  destruct (call_apify_actor env _ _ n) as [[items|e0] n0]. 2: {
    simpl in Hn. subst n0. split; [reflexivity|]. split.
    - intros t n' [= <- _]. split; [reflexivity | now left].
    - discriminate. }
  simpl in Hn. subst n0.
  destruct (py_bool env items) eqn:Hb. 2: {
    split; [reflexivity|]. split.
    - intros t n' [= <- _]. split; [reflexivity | now left].
    - discriminate. }
  destruct items as [|b|lit|[|c s]|[|x l]|[|kv d]]; simpl in Hb |- *;
    try discriminate Hb;
    try (split; [reflexivity|]; split;
         [discriminate | intros e n' [= <- _]; auto]).
  destruct x as [| | | | |item];
    try (split; [reflexivity|]; split;
         [discriminate | intros e n' [= <- _]; auto]).
  split; [reflexivity|]. split; [|discriminate].
  intros t n' [= <- _]. split; [reflexivity|]. simpl.
  apply py_or_empty_string.
Qed.

Lemma fetch_lyrics_title title artist n t n' :
  fetch_lyrics_from_genius env title artist n = (Ok t, n') ->
  song_title t = title /\ n' = S n.
Proof.
  rewrite fetch_lyrics_from_genius_run.
  pose proof (call_apify_actor_one_request env (GENIUS_ACTOR_ID env)
                (genius_payload (title ++ str " " ++ artist ++ str " lyrics"))
                n) as Hn.
  destruct (call_apify_actor env _ _ n) as [[items|e0] n0];
    simpl in Hn; subst n0; [|now intros [= <- <-]].
  destruct (py_bool env items); [|now intros [= <- <-]].
  destruct (subscript0 items) as [item|e]; [|discriminate].
  destruct item; try discriminate. now intros [= <- <-].
Qed.

(** The loop over the tracks: one record per track name, in their order,
    and one request for each. *)
Lemma fetch_tracks_names artist ts :
  forall acc n res n',
    fetch_tracks env artist ts acc n = (Ok res, n') ->
    map song_title res = map song_title acc ++ track_names env ts
    /\ n' = (n + length (track_names env ts))%nat.
Proof.
  unfold track_names.
  induction ts as [|t ts IH]; intros acc n res n'; simpl.
  - intros [= <- <-]. now rewrite app_nil_r, Nat.add_0_r.
  - destruct (truthy (strip (py_str env t))) eqn:Ht; cbn [negb].
    + unfold Pipeline.bind at 1.
      pose proof (fetch_lyrics_title (strip (py_str env t)) artist n) as Hok.
      destruct (fetch_lyrics_from_genius env _ artist n) as [[info|e] n1];
        [|discriminate].
      destruct (Hok info n1 eq_refl) as [Htitle ->].
      intros H. apply IH in H as [Hmap ->].
      rewrite Hmap, map_app, <- app_assoc. simpl. rewrite Htitle.
      split; [reflexivity | lia].
    + apply IH.
Qed.

(** With replies the pipeline gets through, the loop over the tracks
    returns. *)
Lemma fetch_tracks_returns artist ts :
  (forall m query,
      tolerated_reply env (requests_post env m (GENIUS_ACTOR_ID env)
                                         (genius_payload query))) ->
  forall acc n, exists res n', fetch_tracks env artist ts acc n = (Ok res, n').
Proof.
  intros Hreplies. induction ts as [|t ts IH]; intros acc n; simpl.
  - now exists acc, n.
  - destruct (truthy (strip (py_str env t))); cbn [negb]; [|apply IH].
    unfold Pipeline.bind at 1. rewrite fetch_lyrics_from_genius_run.
    unfold call_apify_actor.
    specialize (Hreplies n (strip (py_str env t) ++ str " " ++ artist
                            ++ str " lyrics")).
    destruct (requests_post env n _ _) as [status body| | |e0];
      [|apply IH..].
    simpl in Hreplies.
    destruct (is_error_status status); [apply IH|].
    destruct Hreplies as [H|H]; [discriminate|].
    destruct (json_loads (llm env) body) as [v|]; [|apply IH].
    destruct H as [H|(item & rest & ->)].
    + rewrite H. apply IH.
    + simpl. apply IH.
Qed.

End PipelineProperties.

Section ArtistLookup.

Import Agent.
Import Pipeline.

Variable env : Pipeline.services.

(** What the artist lookup comes to, by the outcome of its call to
    Apify. *)
Lemma get_artist_from_youtube_run url n :
  get_artist_from_youtube env url n
  = match call_apify_actor env (YOUTUBE_ACTOR_ID env) (youtube_payload url) n
    with
    | (Err e, n') => (Err e, n')
    | (Ok items, n') =>
        if py_bool env items then
          match subscript0 items with
          | Err e => (Err e, n')
          | Ok first =>
              match first with
              | JDict d =>
                  match py_strip (artist_field env d) with
                  | Err e => (Err e, n')
                  | Ok artist =>
                      if truthy artist then (Ok artist, n')
                      else (Err (Exn (RuntimeError
                                        (str "Could not extract artist name from YouTube output: "))),
                            n')
                  end
              | _ => (Err (Exn AttributeError), n')
              end
          end
        else (Err (Exn (RuntimeError (str "YouTube Scraper returned no items."))),
              n')
    end.
Proof.
  unfold get_artist_from_youtube, Pipeline.bind at 1.
  destruct (call_apify_actor env _ _ n) as [[items|e] n']; [|reflexivity].
  destruct (py_bool env items); [|reflexivity]. cbn [negb].
  unfold Pipeline.bind, lift.
  destruct (subscript0 items) as [first|e]; [|reflexivity].
  destruct first as [| | | | |d]; try reflexivity.
  cbn [py_get]. fold (field (str "channelTitle") d).
  fold (field (str "channelName") d). fold (field (str "uploader") d).
  fold (field (str "author") d).
  change (py_or env (field (str "channelTitle") d)
            (py_or env (field (str "channelName") d)
               (py_or env (field (str "uploader") d)
                  (py_or env (field (str "author") d) (JString [])))))
    with (artist_field env d).
  destruct (py_strip (artist_field env d)) as [artist|e]; [|reflexivity].
  now destruct (truthy artist).
Qed.

(** The [or] chain stops at the first field that is true. *)
Lemma or_chain_first d keys_before key keys_after :
  (forall k, In k keys_before -> py_bool env (field k d) = false) ->
  py_bool env (field key d) = true ->
  fold_right (fun k rest => py_or env (field k d) rest) (JString [])
             (keys_before ++ key :: keys_after)
  = field key d.
Proof.
  intros Hbefore Hkey. induction keys_before as [|k ks IH]; simpl.
  - unfold py_or. now rewrite Hkey.
  - unfold py_or at 1. rewrite (Hbefore k (or_introl eq_refl)).
    apply IH. intros k' Hk'. apply Hbefore. now right.
Qed.

(** The chain gives the empty string or the value of one of the fields,
    a true one. *)
Lemma or_chain_value d keys :
  fold_right (fun k rest => py_or env (field k d) rest) (JString []) keys
  = JString []
  \/ exists key, In key keys
                 /\ py_bool env (field key d) = true
                 /\ fold_right (fun k rest => py_or env (field k d) rest)
                               (JString []) keys
                    = field key d.
Proof.
  induction keys as [|k ks IH]; simpl; [now left|].
  unfold py_or at 1 3. destruct (py_bool env (field k d)) eqn:E.
  - right. exists k. auto.
  - destruct IH as [H|(key & Hin & Hb & H)]; [now left|].
    right. exists key. auto.
Qed.

End ArtistLookup.

Section PipelineReport.

Import Agent.
Import Pipeline.

Variable env : Pipeline.services.

(** The artist is taken from the first item of the metadata lookup, under
    the first of [channelTitle], [channelName], [uploader] and [author]
    whose value is true, stripped.  A field of higher priority that holds
    only white space is not passed over: the lookup then raises, whatever
    the fields after it hold. *)
Theorem artist_by_priority
        url n status body d rest keys_before key keys_after s :
  requests_post env n (YOUTUBE_ACTOR_ID env) (youtube_payload url)
  = Response status body ->
  is_error_status status = false ->
  json_loads (llm env) body = Some (JList (JDict d :: rest)) ->
  ARTIST_KEYS = keys_before ++ key :: keys_after ->
  (forall k, In k keys_before -> py_bool env (field k d) = false) ->
  dict_get key d = Some (JString s) ->
  s <> [] ->
  get_artist_from_youtube env url n
  = (if truthy (strip s) then Ok (strip s)
     else Err (Exn (RuntimeError
                      (str "Could not extract artist name from YouTube output: "))),
     S n).
Proof.
  intros Hreply Hstatus Hbody Hkeys Hbefore Hkey Hs.
  rewrite get_artist_from_youtube_run. unfold call_apify_actor.
  rewrite Hreply, Hstatus, Hbody. cbn [py_bool subscript0].
  assert (Hfield : field key d = JString s) by (unfold field; now rewrite Hkey).
  unfold artist_field. rewrite Hkeys, or_chain_first; [|exact Hbefore|].
  - rewrite Hfield. cbn [py_strip]. now destruct (truthy (strip s)).
  - rewrite Hfield. now destruct s.
Qed.

(** An artist lookup that returns has sent one request and gives a name
    that is not empty and has no white space at either end: the stripped
    string one of the four fields of the first item holds. *)
Theorem artist_is_never_blank url n artist n' :
  get_artist_from_youtube env url n = (Ok artist, n') ->
  n' = S n
  /\ artist <> []
  /\ trimmed artist
  /\ exists status body d rest key s,
      requests_post env n (YOUTUBE_ACTOR_ID env) (youtube_payload url)
      = Response status body
      /\ json_loads (llm env) body = Some (JList (JDict d :: rest))
      /\ In key ARTIST_KEYS
      /\ dict_get key d = Some (JString s)
      /\ artist = strip s.
Proof.
  rewrite get_artist_from_youtube_run. unfold call_apify_actor.
  destruct (requests_post env n _ _) as [status body| | |e0] eqn:Hreply;
    try discriminate.
  destruct (is_error_status status); [discriminate|].
  destruct (json_loads (llm env) body) as [items|] eqn:Hbody; [|discriminate].
  destruct (py_bool env items); [|discriminate].
  destruct items as [| | |[|c s0]|[|first rest]|[|kv d0]]; try discriminate.
  cbn [subscript0].
  destruct first as [| | | | |d]; try discriminate.
  destruct (or_chain_value env d ARTIST_KEYS) as [H|(key & Hin & Hb & H)];
    fold (artist_field env d) in H; rewrite H.
  - discriminate.
  - destruct (field key d) as [| | |s| |] eqn:Hfield; try discriminate.
    cbn [py_strip]. destruct (truthy (strip s)) eqn:Ht; [|discriminate].
    intros [= <- <-]. split; [reflexivity|]. split; [now destruct (strip s)|].
    split; [apply strip_is_trimmed|].
    exists status, body, d, rest, key, s. repeat split; try assumption.
    unfold field in Hfield.
    destruct (dict_get key d) as [x|]; [now subst x | discriminate].
Qed.

Lemma artist_lookup_facts url n artist n' :
  get_artist_from_youtube env url n = (Ok artist, n') ->
  n' = S n /\ artist <> [].
Proof.
  rewrite get_artist_from_youtube_run.
  pose proof (call_apify_actor_one_request env (YOUTUBE_ACTOR_ID env)
                (youtube_payload url) n) as Hn.
  destruct (call_apify_actor env _ _ n) as [[items|e] n0]; [|discriminate].
  simpl in Hn. subst n0.
  destruct (py_bool env items); [|discriminate].
  destruct (subscript0 items) as [first|e]; [|discriminate].
  destruct first as [| | | | |d]; try discriminate.
  destruct (py_strip (artist_field env d)) as [a|e]; [|discriminate].
  destruct (truthy a) eqn:Ht; [|discriminate].
  intros [= <- <-]. split; [reflexivity | now destruct a].
Qed.

Lemma get_first_album_returns_object artist_name data :
  get_first_album_from_llm (llm env) artist_name = Returned data ->
  exists items track_values,
    data = JDict items
    /\ dict_get (str "tracks") items = Some (JList track_values).
Proof.
  unfold get_first_album_from_llm.
  destruct (call_ollama_json (llm env) _) as [v|e]; simpl; [|discriminate].
  destruct v as [|b|lit|s|l|items]; simpl; try discriminate.
  - match goal with |- context [if ?b then _ else _] => destruct b end;
      discriminate.
  - match goal with |- context [if ?b then _ else _] => destruct b end;
      discriminate.
  - destruct (dict_get (str "tracks") items) as [t|] eqn:Ht; simpl;
      [|discriminate].
    destruct t as [|b|lit|s|track_values|d]; simpl; try discriminate.
    intros [= <-]. now exists items, track_values.
Qed.

(** What the report comes to once the artist and the album are there. *)
Lemma build_agent_output_run url n artist items track_values :
  get_artist_from_youtube env url n = (Ok artist, S n) ->
  get_first_album_from_llm (llm env) artist = Returned (JDict items) ->
  dict_get (str "tracks") items = Some (JList track_values) ->
  build_agent_output env url n
  = match fetch_tracks env artist track_values [] (S n) with
    | (Ok lyrics_results, n') =>
        (Ok {| input_youtube_url := url;
               artist_from_youtube := artist;
               album_artist := field (str "artist") items;
               album_title := field (str "album_title") items;
               release_year := field (str "release_year") items;
               tracks := lyrics_results |}, n')
    | (Err e, n') => (Err e, n')
    end.
Proof.
  intros Hartist Halbum Htracks.
  unfold build_agent_output, Pipeline.bind at 1. rewrite Hartist.
  unfold Pipeline.bind at 1, lift at 1. rewrite Halbum. cbn [of_outcome].
  unfold Pipeline.bind, lift. cbn [py_get]. rewrite Htracks. cbn [py_iter].
  now destruct (fetch_tracks env artist track_values [] (S n)) as [[res|e] n'].
Qed.

(** A report that is returned is about the URL asked for, names an artist
    that is not empty, and holds one entry per track name of the album the
    language model gave (the entries that are blank once stripped left
    out), in the order of the album; the run has sent one request for the
    artist and one per entry. *)
Theorem report_follows_tracks url n out n' :
  build_agent_output env url n = (Ok out, n') ->
  input_youtube_url out = url
  /\ artist_from_youtube out <> []
  /\ exists items track_values,
      get_first_album_from_llm (llm env) (artist_from_youtube out)
      = Returned (JDict items)
      /\ dict_get (str "tracks") items = Some (JList track_values)
      /\ map song_title (tracks out) = track_names env track_values
      /\ album_title out = field (str "album_title") items
      /\ n' = (n + 1 + length (tracks out))%nat.
Proof.
  intros H.
  destruct (get_artist_from_youtube env url n) as [[artist|e] n1] eqn:Hartist.
  2: { unfold build_agent_output, Pipeline.bind at 1 in H.
       rewrite Hartist in H. discriminate H. }
  destruct (artist_lookup_facts url n artist n1 Hartist) as [-> Hne].
  destruct (get_first_album_from_llm (llm env) artist) as [album|e] eqn:Halbum.
  2: { unfold build_agent_output, Pipeline.bind at 1 in H.
       rewrite Hartist in H. unfold Pipeline.bind at 1, lift at 1 in H.
       rewrite Halbum in H. discriminate H. }
  destruct (get_first_album_returns_object artist album Halbum)
    as (items & track_values & -> & Htracks).
  rewrite (build_agent_output_run url n artist items track_values
             Hartist Halbum Htracks) in H.
  destruct (fetch_tracks env artist track_values [] (S n))
    as [[res|e] n2] eqn:Hloop; [|discriminate H].
  injection H as <- <-. cbn.
  apply fetch_tracks_names in Hloop as [Hmap ->]. simpl in Hmap.
  split; [reflexivity|]. split; [exact Hne|].
  exists items, track_values. repeat split; try assumption.
  rewrite <- (length_map song_title res), Hmap. lia.
Qed.

(** Once the artist and the album are there, no failed lyrics lookup
    stops the report: with replies that are failures, falsy or lists
    starting with an object, the report is returned, with one entry per
    track name. *)
Theorem report_survives_failed_lookups url n artist items track_values :
  get_artist_from_youtube env url n = (Ok artist, S n) ->
  get_first_album_from_llm (llm env) artist = Returned (JDict items) ->
  dict_get (str "tracks") items = Some (JList track_values) ->
  (forall m query,
      tolerated_reply env (requests_post env m (GENIUS_ACTOR_ID env)
                                         (genius_payload query))) ->
  exists out,
    build_agent_output env url n
    = (Ok out, (n + 1 + length (track_names env track_values))%nat)
    /\ artist_from_youtube out = artist
    /\ map song_title (tracks out) = track_names env track_values.
Proof.
  intros Hartist Halbum Htracks Hreplies.
  rewrite (build_agent_output_run url n artist items track_values
             Hartist Halbum Htracks).
  destruct (fetch_tracks_returns env artist track_values Hreplies [] (S n))
    as (res & n' & Hloop).
  rewrite Hloop. apply fetch_tracks_names in Hloop as [Hmap ->].
  eexists. split; [f_equal; lia|]. split; [reflexivity | exact Hmap].
Qed.

End PipelineReport.

Example sample_pipeline_report :
  Pipeline.build_agent_output sample_pipeline
                              (str "https://youtu.be/fJ9rUzIMcZQ") 0
  = (Pipeline.Ok sample_report, 3%nat).
Proof. reflexivity. Qed.

Lemma lyrics_lookup_degrades_witness :
  exists e,
    Pipeline.fetch_lyrics_from_genius sample_pipeline
      (str "Keep Yourself Alive") (str "Queen Official") 1
    = (Pipeline.Ok
         {| Pipeline.song_title := str "Keep Yourself Alive";
            Pipeline.genius_url := Agent.JNull;
            Pipeline.lyrics_raw := Agent.JString [];
            Pipeline.error :=
              Agent.JString (str "Apify call failed: "
                             ++ Pipeline.str_of_failure sample_pipeline e) |},
       2%nat).
Proof.
  apply (lyrics_lookup_degrades sample_pipeline
           (str "Keep Yourself Alive") (str "Queen Official") 1).
  left. reflexivity.
Defined.

Lemma lyrics_lookup_shape_witness :
  Pipeline.song_title
    {| Pipeline.song_title := str "Liar";
       Pipeline.genius_url :=
         Agent.JString (str "https://genius.com/Queen-liar-lyrics");
       Pipeline.lyrics_raw := Agent.JString (str "Line1");
       Pipeline.error := Agent.JNull |} = str "Liar"
  /\ (Agent.JString (str "Line1") = Agent.JString []
      \/ Pipeline.py_bool sample_pipeline (Agent.JString (str "Line1")) = true).
Proof.
  apply (proj1 (proj2 (lyrics_lookup_shape sample_pipeline
                         (str "Liar") (str "Queen Official") 2))
               {| Pipeline.song_title := str "Liar";
                  Pipeline.genius_url :=
                    Agent.JString (str "https://genius.com/Queen-liar-lyrics");
                  Pipeline.lyrics_raw := Agent.JString (str "Line1");
                  Pipeline.error := Agent.JNull |}
               3%nat).
  reflexivity.
Defined.

Lemma artist_by_priority_witness :
  Pipeline.get_artist_from_youtube sample_pipeline
                                   (str "https://youtu.be/fJ9rUzIMcZQ") 0
  = (Pipeline.Ok (str "Queen Official"), 1%nat).
Proof.
  apply (artist_by_priority sample_pipeline
           (str "https://youtu.be/fJ9rUzIMcZQ") 0 200 youtube_body
           youtube_item [] [str "channelTitle"] (str "channelName")
           [str "uploader"; str "author"] (str " Queen Official ")).
  - reflexivity.
  - reflexivity.
  - reflexivity.
  - reflexivity.
  - intros k [<-|[]]. reflexivity.
  - reflexivity.
  - discriminate.
Defined.

Lemma artist_is_never_blank_witness :
  1%nat = 1%nat
  /\ str "Queen Official" <> []
  /\ trimmed (str "Queen Official")
  /\ exists status body d rest key s,
      Pipeline.requests_post sample_pipeline 0
        (Pipeline.YOUTUBE_ACTOR_ID sample_pipeline)
        (Pipeline.youtube_payload (str "https://youtu.be/fJ9rUzIMcZQ"))
      = Response status body
      /\ Agent.json_loads (Pipeline.llm sample_pipeline) body
         = Some (Agent.JList (Agent.JDict d :: rest))
      /\ In key ARTIST_KEYS
      /\ Agent.dict_get key d = Some (Agent.JString s)
      /\ str "Queen Official" = strip s.
Proof.
  apply (artist_is_never_blank sample_pipeline
           (str "https://youtu.be/fJ9rUzIMcZQ") 0 (str "Queen Official") 1).
  reflexivity.
Defined.

Lemma report_follows_tracks_witness :
  Pipeline.input_youtube_url sample_report = str "https://youtu.be/fJ9rUzIMcZQ"
  /\ Pipeline.artist_from_youtube sample_report <> []
  /\ exists items track_values,
      Agent.get_first_album_from_llm (Pipeline.llm sample_pipeline)
        (Pipeline.artist_from_youtube sample_report)
      = Returned (Agent.JDict items)
      /\ Agent.dict_get (str "tracks") items = Some (Agent.JList track_values)
      /\ map Pipeline.song_title (Pipeline.tracks sample_report)
         = track_names sample_pipeline track_values
      /\ Pipeline.album_title sample_report = field (str "album_title") items
      /\ 3%nat = (0 + 1 + length (Pipeline.tracks sample_report))%nat.
Proof.
  apply (report_follows_tracks sample_pipeline
           (str "https://youtu.be/fJ9rUzIMcZQ") 0 sample_report 3).
  reflexivity.
Defined.

Lemma report_survives_failed_lookups_witness :
  exists out,
    Pipeline.build_agent_output sample_pipeline
                                (str "https://youtu.be/fJ9rUzIMcZQ") 0
    = (Pipeline.Ok out,
       (0 + 1 + length (track_names sample_pipeline
                          [Agent.JString (str "Keep Yourself Alive");
                           Agent.JString (str "  ");
                           Agent.JString (str " Liar ")]))%nat)
    /\ Pipeline.artist_from_youtube out = str "Queen Official"
    /\ map Pipeline.song_title (Pipeline.tracks out)
       = track_names sample_pipeline
           [Agent.JString (str "Keep Yourself Alive");
            Agent.JString (str "  ");
            Agent.JString (str " Liar ")].
Proof.
  apply (report_survives_failed_lookups sample_pipeline
           (str "https://youtu.be/fJ9rUzIMcZQ") 0 (str "Queen Official")
           album_items).
  - reflexivity.
  - reflexivity.
  - reflexivity.
  - intros [|[|m]] query; simpl.
    + right. right. now exists youtube_item, [].
    + exact I.
    + right. right. now exists genius_item, [].
Defined.

Section PipelineFatal.

Import Agent.
Import Pipeline.

Variable env : Pipeline.services.

(** Without an artist or an album there is no report: what the artist
    lookup raises, [build_agent_output] raises after that one request; a
    metadata lookup that finds nothing is a [RuntimeError]; and what the
    album lookup raises is raised before any lyrics lookup is sent. *)
Theorem report_needs_artist_and_album url n :
  (forall e n',
      get_artist_from_youtube env url n = (Err e, n') ->
      build_agent_output env url n = (Err e, S n))
  /\ (forall status body items,
         requests_post env n (YOUTUBE_ACTOR_ID env) (youtube_payload url)
         = Response status body ->
         is_error_status status = false ->
         json_loads (llm env) body = Some items ->
         py_bool env items = false ->
         build_agent_output env url n
         = (Err (Exn (RuntimeError (str "YouTube Scraper returned no items."))),
            S n))
  /\ (forall artist e,
         get_artist_from_youtube env url n = (Ok artist, S n) ->
         get_first_album_from_llm (llm env) artist = Raised e ->
         build_agent_output env url n = (Err (Exn e), S n)).
Proof.
  assert (Hfail : forall e n',
             get_artist_from_youtube env url n = (Err e, n') ->
             build_agent_output env url n = (Err e, S n)).
  { intros e n' H. unfold build_agent_output, Pipeline.bind at 1.
    rewrite H. f_equal. revert H. rewrite get_artist_from_youtube_run.
    pose proof (call_apify_actor_one_request env (YOUTUBE_ACTOR_ID env)
                  (youtube_payload url) n) as Hn.
    destruct (call_apify_actor env _ _ n) as [[items|e0] n0];
      simpl in Hn; subst n0; [|now intros [= _ <-]].
    destruct (py_bool env items); [|now intros [= _ <-]].
    destruct (subscript0 items) as [first|e1]; [|now intros [= _ <-]].
    destruct first as [| | | | |d]; try now intros [= _ <-].
    destruct (py_strip (artist_field env d)) as [a|e1]; [|now intros [= _ <-]].
    destruct (truthy a); [discriminate | now intros [= _ <-]]. }
  split; [exact Hfail|]. split.
  - intros status body items Hreply Hstatus Hbody Hfalsy.
    apply (Hfail _ (S n)). rewrite get_artist_from_youtube_run.
    unfold call_apify_actor. now rewrite Hreply, Hstatus, Hbody, Hfalsy.
  - intros artist e Hartist Halbum.
    unfold build_agent_output, Pipeline.bind at 1. rewrite Hartist.
    unfold Pipeline.bind at 1, lift at 1. now rewrite Halbum.
Qed.

End PipelineFatal.

Lemma report_needs_artist_and_album_witness :
  Pipeline.build_agent_output empty_metadata_pipeline
                              (str "https://youtu.be/fJ9rUzIMcZQ") 0
  = (Pipeline.Err
       (Pipeline.Exn (RuntimeError (str "YouTube Scraper returned no items."))),
     1%nat).
Proof.
  apply (proj1 (proj2 (report_needs_artist_and_album empty_metadata_pipeline
                         (str "https://youtu.be/fJ9rUzIMcZQ") 0))
               200%Z (str "[]") (Agent.JList []));
    reflexivity.
Defined.
